(** * eduf_backend: the analytics router, embedded and verified

    Shallow embedding of [src/routers/analytics.py] (the scoring block and
    insight composer [generate_ai_insights], the submission handler
    [submit_test] with its analytics update, and the read-only query
    [get_student_performance]) over the ORM classes of
    [src/models/analytics.py].

    Modelling conventions.
    - Python [int] is [Z]; Python [str] is [string]; [==] on [str] is
      [String.eqb].
    - Python [float] is idealised as an exact rational [Q]; numeric results
      are compared with [==] (Qeq).  Python's [/] raises
      [ZeroDivisionError] on a zero divisor; this is written out in
      [py_truediv].  The idealisation leaves out binary64 rounding: what is
      stated over [Q] are bounds and the comparisons with 0, 70, 90 and
      100.  Where the exact value of a score matters it is computed in
      binary64, with the kernel's primitive floats
      ([score_questions_binary64]).
    - A Python exception is a value of [exception]; code that may raise
      lives in the [result] monad.
    - A [dict] keeps insertion order: an association list whose keys are
      kept unique by [dict_set].
    - [datetime] is a number of microseconds since the epoch, [timedelta]
      a number of microseconds.  Every call of [datetime.utcnow()] is a
      separate clock reading handed to the function.
    - The database is the committed state.  What a request adds to its
      session becomes part of it at [db.commit()] only; a request that
      raises before leaves the committed state as it was. *)

From Stdlib Require Import QArith Lqa.
From Stdlib Require PrimFloat Uint63.
From stdpp Require Import base option list gmap strings sorting.

Local Open Scope Z_scope.

(** ** Exceptions and the result monad *)

Inductive exception : Type :=
  | ZeroDivisionError
  | IndexError
  | AttributeError (class_name attribute : string)
  | TypeError (message : string)
  | HTTPException (status_code : Z) (detail : string)
  | CollaboratorError (message : string).

Inductive result (A : Type) : Type :=
  | Ok (a : A)
  | Raise (e : exception).
Arguments Ok {A} a.
Arguments Raise {A} e.

#[global] Instance result_ret : MRet result := fun A a => Ok a.
#[global] Instance result_bind : MBind result := fun A B f m =>
  match m with
  | Ok a => f a
  | Raise e => Raise e
  end.

(** ** Python primitives used by the router *)

(** [a / b] on numbers. *)
Definition py_truediv (a b : Q) : result Q :=
  if Qeq_bool b 0 then Raise ZeroDivisionError else Ok (a / b)%Q.

(** [sum(xs)] on floats and on ints: starts from [0], adds left to right. *)
Definition py_sum (xs : list Q) : Q := fold_left Qplus xs 0%Q.
Definition py_sum_int (xs : list Z) : Z := fold_left Z.add xs 0.

(** [len(xs)]. *)
Definition len {A} (xs : list A) : Z := Z.of_nat (length xs).

(** [x += n] where [x] may be [None]. *)
Definition py_iadd (x : option Z) (n : Z) : result Z :=
  match x with
  | Some v => Ok (v + n)
  | None => Raise (TypeError "unsupported operand type(s) for +=: 'NoneType' and 'int'")
  end.

(** [a < b] and [a >= b] on floats. *)
Definition Qltb (a b : Q) : bool := negb (Qle_bool b a).
Definition Qgeb (a b : Q) : bool := Qle_bool b a.

(** Monadic left fold: a [for] loop whose body may raise. *)
Fixpoint for_each {A S} (body : S -> A -> result S) (xs : list A) (s : S) : result S :=
  match xs with
  | [] => Ok s
  | x :: xs' => s' ← body s x; for_each body xs' s'
  end.

(** ** Insertion-ordered dictionaries with string keys *)

Definition dict (V : Type) : Type := list (string * V).

Section dict_ops.
Context {V : Type}.

(** [d.get(k)] *)
Fixpoint dict_get (k : string) (d : dict V) : option V :=
  match d with
  | [] => None
  | (k', v) :: d' => if decide (k = k') then Some v else dict_get k d'
  end.

(** [d[k] = v]: overwrite in place, or append a new key at the end. *)
Fixpoint dict_set (k : string) (v : V) (d : dict V) : dict V :=
  match d with
  | [] => [(k, v)]
  | (k', v') :: d' =>
      if decide (k = k') then (k', v) :: d' else (k', v') :: dict_set k v d'
  end.

(** [list(d.keys())] *)
Definition dict_keys (d : dict V) : list string := map fst d.
End dict_ops.

(** ** Time *)

Definition datetime : Type := Z.
Definition timedelta : Type := Z.
Definition timedelta_days (d : Z) : timedelta := d * 86400000000.
Definition timedelta_hours (h : Z) : timedelta := h * 3600000000.

(** ** Request models (pydantic) *)

Module QuestionSubmission.
Record t : Type := mk {
  question_text : string;
  correct_answer : string;
  student_answer : string;
  topic : string;
  subtopic : string
}.

(** [q.time_taken]: the class declares no such field, so the attribute
    lookup raises for every instance. *)
Definition time_taken (q : t) : result Z :=
  Raise (AttributeError "QuestionSubmission" "time_taken").
End QuestionSubmission.

Module TestSubmission.
Record t : Type := mk {
  questions : list QuestionSubmission.t;
  time_taken : Z
}.
End TestSubmission.

(** ** The insight payload *)

(** One element of [topic_performance[topic]["questions"]]. *)
Module QuestionDetail.
Record t : Type := mk {
  question : string;
  correct_answer : string;
  student_answer : string;
  is_correct : bool
}.
End QuestionDetail.

(** One value of [topic_performance]. *)
Module TopicEntry.
Record t : Type := mk {
  correct : Z;
  total : Z;
  questions : list QuestionDetail.t
}.
Definition empty : t := mk 0 0 [].
End TopicEntry.

(** The dict returned by [generate_ai_insights]. *)
Module Insights.
Record t : Type := mk {
  analysis : string;
  topic_performance : dict TopicEntry.t;
  score : Q;
  time_taken : Z
}.
End Insights.

(** ** ORM models ([src/models/analytics.py]) *)

Module TestQuestion.
Record t : Type := mk {
  test_result_id : Z;
  question_text : string;
  correct_answer : string;
  student_answer : string;
  is_correct : bool;
  topic : string;
  subtopic : string
}.
End TestQuestion.

(** A [TestResult] row as [submit_test] writes it: the two JSON columns
    hold the insight payload and its topic mapping. *)
Module TestResult.
Record t : Type := mk {
  id : Z;
  student_id : Z;
  test_id : Z;
  score : Q;
  completed_at : datetime;
  ai_feedback : Insights.t;
  total_questions : Z;
  correct_answers : Z;
  topics_summary : dict TopicEntry.t;
  time_taken : Z
}.
End TestResult.

(** A [StudentAnalytics] object.  A column holds [None] until it is
    assigned or loaded: the [default=] of a [Column] is applied by the
    INSERT, not by the constructor. *)
Module StudentAnalytics.
Record t : Type := mk {
  student_id : Z;
  total_flashcards_viewed : option Z;
  total_tests_taken : option Z;
  average_test_score : option Q;
  weak_topics : option (list string);
  strong_topics : option (list string);
  learning_streak : option Z;
  last_activity : option datetime;
  historical_performance : option string
}.

(** [StudentAnalytics(student_id=student_id)] *)
Definition new (sid : Z) : t :=
  mk sid None None None None None None None None.

Definition set_total_tests_taken (v : Z) (a : t) : t :=
  mk (student_id a) (total_flashcards_viewed a) (Some v) (average_test_score a)
     (weak_topics a) (strong_topics a) (learning_streak a) (last_activity a)
     (historical_performance a).
Definition set_last_activity (v : datetime) (a : t) : t :=
  mk (student_id a) (total_flashcards_viewed a) (total_tests_taken a)
     (average_test_score a) (weak_topics a) (strong_topics a) (learning_streak a)
     (Some v) (historical_performance a).
Definition set_average_test_score (v : Q) (a : t) : t :=
  mk (student_id a) (total_flashcards_viewed a) (total_tests_taken a) (Some v)
     (weak_topics a) (strong_topics a) (learning_streak a) (last_activity a)
     (historical_performance a).
Definition set_weak_topics (v : list string) (a : t) : t :=
  mk (student_id a) (total_flashcards_viewed a) (total_tests_taken a)
     (average_test_score a) (Some v) (strong_topics a) (learning_streak a)
     (last_activity a) (historical_performance a).
Definition set_strong_topics (v : list string) (a : t) : t :=
  mk (student_id a) (total_flashcards_viewed a) (total_tests_taken a)
     (average_test_score a) (weak_topics a) (Some v) (learning_streak a)
     (last_activity a) (historical_performance a).
Definition set_learning_streak (v : Z) (a : t) : t :=
  mk (student_id a) (total_flashcards_viewed a) (total_tests_taken a)
     (average_test_score a) (weak_topics a) (strong_topics a) (Some v)
     (last_activity a) (historical_performance a).

(** The column defaults the INSERT fills in for columns still [None]
    ([last_activity] is always assigned before the row is written). *)
Definition insert_defaults (a : t) : t :=
  mk (student_id a)
     (Some (default 0 (total_flashcards_viewed a)))
     (Some (default 0 (total_tests_taken a)))
     (Some (default 0%Q (average_test_score a)))
     (weak_topics a) (strong_topics a)
     (Some (default 0 (learning_streak a)))
     (last_activity a) (historical_performance a).
End StudentAnalytics.

(** The committed database: the two result tables in insertion order and
    the analytics table, which is unique on [student_id]. *)
Record Database : Type := mkDatabase {
  test_results : list TestResult.t;
  test_questions : list TestQuestion.t;
  student_analytics : gmap Z StudentAnalytics.t
}.

(** ** Responses *)

Module AnalyticsSummary.
Record t : Type := mk {
  total_tests : option Z;
  average_score : option Q;
  learning_streak : option Z;
  weak_topics : option (list string);
  strong_topics : option (list string)
}.
End AnalyticsSummary.

Module SubmitResponse.
Record t : Type := mk {
  status : string;
  insights : Insights.t;
  analytics_summary : AnalyticsSummary.t
}.
End SubmitResponse.

(** One element of [test_data] in [get_student_performance]. *)
Module TestData.
Record t : Type := mk {
  date : datetime;
  score : Q;
  topics : list string;
  time_taken : Z;
  insights : string
}.
End TestData.

Module OverallStats.
Record t : Type := mk {
  total_tests_taken : option Z;
  average_score : option Q;
  learning_streak : option Z;
  weak_topics : option (list string);
  strong_topics : option (list string);
  last_activity : option datetime
}.
End OverallStats.

Module PerformanceResponse.
Record t : Type := mk {
  overall_stats : OverallStats.t;
  recent_tests : list TestData.t;
  performance_chart : option string
}.
End PerformanceResponse.

(** ** Scoring block of [generate_ai_insights] (lines 31-49) *)

(** [q.student_answer == q.correct_answer] *)
Definition is_correct (q : QuestionSubmission.t) : bool :=
  String.eqb (QuestionSubmission.student_answer q) (QuestionSubmission.correct_answer q).

(** [sum(1 for q in questions if q.student_answer == q.correct_answer)] *)
Definition count_correct (questions : list QuestionSubmission.t) : Z :=
  py_sum_int (map (fun _ => 1) (List.filter is_correct questions)).

(** Body of the loop [for q in questions] that groups by topic. *)
Definition tally (topic_performance : dict TopicEntry.t) (q : QuestionSubmission.t)
    : dict TopicEntry.t :=
  let topic := QuestionSubmission.topic q in
  let topic_performance :=
    match dict_get topic topic_performance with
    | None => dict_set topic TopicEntry.empty topic_performance
    | Some _ => topic_performance
    end in
  let correct := is_correct q in
  match dict_get topic topic_performance with
  | Some entry =>
      dict_set topic
        (TopicEntry.mk
           (TopicEntry.correct entry + (if correct then 1 else 0))
           (TopicEntry.total entry + 1)
           (TopicEntry.questions entry ++
              [QuestionDetail.mk (QuestionSubmission.question_text q)
                 (QuestionSubmission.correct_answer q)
                 (QuestionSubmission.student_answer q) correct]))
        topic_performance
  | None => topic_performance
  end.

Definition group_by_topic (questions : list QuestionSubmission.t) : dict TopicEntry.t :=
  fold_left tally questions [].

Module Scoring.
Record t : Type := mk {
  correct_count : Z;
  total_questions : Z;
  score : Q;
  topic_performance : dict TopicEntry.t
}.
End Scoring.

Definition score_questions (questions : list QuestionSubmission.t) : result Scoring.t :=
  let correct_count := count_correct questions in
  let total_questions := len questions in
  ratio ← py_truediv (inject_Z correct_count) (inject_Z total_questions);
  let score := (ratio * 100)%Q in
  Ok (Scoring.mk correct_count total_questions score (group_by_topic questions)).

(** *** The score in binary64

    The same block with the score as Python computes it.  [int / int] is
    the correctly rounded quotient, which for operands below [2^53] is the
    binary64 division of the two converted integers; [float * 100]
    converts [100] and multiplies. *)

Definition float_of_int (n : Z) : PrimFloat.float :=
  PrimFloat.of_uint63 (Uint63.of_Z n).

(** [a / b] on ints. *)
Definition py_int_truediv (a b : Z) : result PrimFloat.float :=
  if b =? 0 then Raise ZeroDivisionError
  else Ok (PrimFloat.div (float_of_int a) (float_of_int b)).

Module Scoring64.
Record t : Type := mk {
  correct_count : Z;
  total_questions : Z;
  score : PrimFloat.float;
  topic_performance : dict TopicEntry.t
}.
End Scoring64.

Definition score_questions_binary64 (questions : list QuestionSubmission.t)
    : result Scoring64.t :=
  let correct_count := count_correct questions in
  let total_questions := len questions in
  ratio ← py_int_truediv correct_count total_questions;
  let score := PrimFloat.mul ratio (float_of_int 100) in
  Ok (Scoring64.mk correct_count total_questions score (group_by_topic questions)).

(** ** Queries *)

(** [db.query(TestResult).filter(TestResult.student_id == student_id)]: the
    student's rows, in table order. *)
Definition results_of (db : Database) (student_id : Z) : list TestResult.t :=
  List.filter (fun r => TestResult.student_id r =? student_id) (test_results db).

(** [order_by(TestResult.completed_at.desc())] *)
Definition more_recent (a b : TestResult.t) : Prop :=
  TestResult.completed_at b <= TestResult.completed_at a.

#[global] Instance more_recent_dec a b : Decision (more_recent a b).
Proof. unfold more_recent. apply _. Defined.

(** [....order_by(TestResult.completed_at.desc()).limit(n).all()] *)
Definition recent_results (db : Database) (student_id : Z) (n : nat) : list TestResult.t :=
  take n (merge_sort more_recent (results_of db student_id)).

(** ** Analytics update of [submit_test] (lines 138-167) *)

(** Loop body of lines 156-158. *)
Definition topic_strength (topic_strengths : dict Q) (item : string * TopicEntry.t)
    : result (dict Q) :=
  let '(topic, data) := item in
  ratio ← py_truediv (inject_Z (TopicEntry.correct data)) (inject_Z (TopicEntry.total data));
  Ok (dict_set topic (ratio * 100)%Q topic_strengths).

Definition weak_of (topic_strengths : dict Q) : list string :=
  map fst (List.filter (fun item => Qltb (snd item) 70) topic_strengths).
Definition strong_of (topic_strengths : dict Q) : list string :=
  map fst (List.filter (fun item => Qgeb (snd item) 90) topic_strengths).

Definition update_student_analytics (db : Database) (student_id : Z)
    (previous_results : list TestResult.t) (insights : Insights.t)
    (now_148 now_164 : datetime) : result StudentAnalytics.t :=
  let analytics :=
    match student_analytics db !! student_id with
    | Some analytics => analytics
    | None => StudentAnalytics.new student_id
    end in
  tests ← py_iadd (StudentAnalytics.total_tests_taken analytics) 1;
  let analytics := StudentAnalytics.set_total_tests_taken tests analytics in
  let analytics := StudentAnalytics.set_last_activity now_148 analytics in
  let all_scores := map TestResult.score previous_results ++ [Insights.score insights] in
  average ← py_truediv (py_sum all_scores) (inject_Z (len all_scores));
  let analytics := StudentAnalytics.set_average_test_score average analytics in
  topic_strengths ← for_each topic_strength (Insights.topic_performance insights) [];
  let analytics := StudentAnalytics.set_weak_topics (weak_of topic_strengths) analytics in
  let analytics := StudentAnalytics.set_strong_topics (strong_of topic_strengths) analytics in
  streak ←
    match StudentAnalytics.last_activity analytics with
    | Some last_activity =>
        if now_164 - last_activity <=? timedelta_days 1
        then py_iadd (StudentAnalytics.learning_streak analytics) 1
        else Ok 1
    | None => Ok 1
    end;
  Ok (StudentAnalytics.set_learning_streak streak analytics).

(** ** The handlers, over their external collaborators *)

Section router.
(** [groq_client.chat.completions.create(...)] followed by
    [.choices[0].message.content]: the text for a prompt, or the
    exception the client raised. *)
Variable groq_complete : string -> result string.
(** [f"{x:.1f}"], [str(n)] and [json.dumps(topic_performance, indent=2)]. *)
Variable format_1f : Q -> string.
Variable format_int : Z -> string.
Variable json_dumps : dict TopicEntry.t -> string.
(** [px.line(pd.DataFrame(test_data), x="date", y="score", ...).to_json()] *)
Variable plot_to_json : list TestData.t -> string.

(** Lines 51-59. *)
Definition historical_context (score : Q) (previous_results : list TestResult.t)
    : result string :=
  match previous_results with
  | [] => Ok EmptyString
  | _ :: _ =>
      avg_score ← py_truediv (py_sum (map TestResult.score previous_results))
                             (inject_Z (len previous_results));
      let context :=
        ("\nHistorical context: Your average score is " +:+ format_1f avg_score +:+ "%. ")%string in
      if Qltb avg_score score
      then Ok (context +:+ "You performed above your usual average!")
      else Ok (context +:+ "This score is below your usual performance.")
  end.

(** Lines 62-80: the prompt, once all its fields are evaluated. *)
Definition prompt_text (s : Scoring.t) (time_taken : Z) (context : string) : string :=
  "As an educational AI assistant, analyze this test performance:

Overall Performance:
- Score: " +:+ format_1f (Scoring.score s) +:+ "%
- Correct answers: " +:+ format_int (Scoring.correct_count s) +:+ "/"
    +:+ format_int (Scoring.total_questions s) +:+ "
- Time taken: " +:+ format_int time_taken +:+ " seconds

Detailed Topic Analysis:
" +:+ json_dumps (Scoring.topic_performance s) +:+ "
" +:+ context +:+ "

Please provide:
1. Specific strengths and weaknesses based on topic performance
2. Detailed analysis of mistakes made, including common patterns
3. Personalized study recommendations for each weak topic
4. Time management feedback
5. Suggested focus areas for immediate improvement

Format the response in a clear, structured way that's encouraging but direct about areas needing improvement.".

(** [questions[0]] *)
Definition first_question (questions : list QuestionSubmission.t)
    : result QuestionSubmission.t :=
  match questions with
  | q :: _ => Ok q
  | [] => Raise IndexError
  end.

(** Lines 82-94: the collaborator call and the returned payload. *)
Definition request_completion (s : Scoring.t) (questions : list QuestionSubmission.t)
    (prompt : string) : result Insights.t :=
  completion ← groq_complete prompt;
  q0 ← first_question questions;
  time_taken ← QuestionSubmission.time_taken q0;
  Ok (Insights.mk completion (Scoring.topic_performance s) (Scoring.score s) time_taken).

Definition generate_ai_insights (questions : list QuestionSubmission.t)
    (previous_results : list TestResult.t) : result Insights.t :=
  s ← score_questions questions;
  context ← historical_context (Scoring.score s) previous_results;
  q0 ← first_question questions;
  prompt_time ← QuestionSubmission.time_taken q0;
  request_completion s questions (prompt_text s prompt_time context).

(** Lines 111-136: the [TestResult] row, with the id and the
    [completed_at] default it gets at [db.flush()], and its
    [TestQuestion] rows. *)
Definition next_id (rows : list TestResult.t) : Z :=
  1 + foldr Z.max 0 (map TestResult.id rows).

Definition new_test_result (db : Database) (student_id test_id : Z)
    (test_submission : TestSubmission.t) (insights : Insights.t)
    (now_flush : datetime) : TestResult.t :=
  TestResult.mk (next_id (test_results db)) student_id test_id
    (Insights.score insights) now_flush insights
    (len (TestSubmission.questions test_submission))
    (count_correct (TestSubmission.questions test_submission))
    (Insights.topic_performance insights)
    (TestSubmission.time_taken test_submission).

Definition new_test_question (test_result : TestResult.t) (q : QuestionSubmission.t)
    : TestQuestion.t :=
  TestQuestion.mk (TestResult.id test_result)
    (QuestionSubmission.question_text q) (QuestionSubmission.correct_answer q)
    (QuestionSubmission.student_answer q) (is_correct q)
    (QuestionSubmission.topic q) (QuestionSubmission.subtopic q).

(** [db.commit()]: the session's new rows and the analytics object are
    written; a new analytics row gets its column defaults. *)
Definition commit (db : Database) (student_id : Z) (test_result : TestResult.t)
    (questions : list TestQuestion.t) (analytics : StudentAnalytics.t) : Database :=
  let row :=
    match student_analytics db !! student_id with
    | Some _ => analytics
    | None => StudentAnalytics.insert_defaults analytics
    end in
  mkDatabase (test_results db ++ [test_result]) (test_questions db ++ questions)
    (<[student_id := row]> (student_analytics db)).

(** The three clock readings of one request: the [completed_at] default
    at the flush, line 148 and line 164. *)
Record Clock : Type := mkClock {
  now_flush : datetime;
  now_148 : datetime;
  now_164 : datetime
}.

Definition submit_test_session (db : Database) (student_id test_id : Z)
    (test_submission : TestSubmission.t) (clock : Clock)
    : result (Database * SubmitResponse.t) :=
  let previous_results := recent_results db student_id 5 in
  insights ← generate_ai_insights (TestSubmission.questions test_submission) previous_results;
  let test_result :=
    new_test_result db student_id test_id test_submission insights (now_flush clock) in
  let questions := map (new_test_question test_result) (TestSubmission.questions test_submission) in
  analytics ← update_student_analytics db student_id previous_results insights
                (now_148 clock) (now_164 clock);
  Ok (commit db student_id test_result questions analytics,
      SubmitResponse.mk "success" insights
        (AnalyticsSummary.mk
           (StudentAnalytics.total_tests_taken analytics)
           (StudentAnalytics.average_test_score analytics)
           (StudentAnalytics.learning_streak analytics)
           (StudentAnalytics.weak_topics analytics)
           (StudentAnalytics.strong_topics analytics))).

(** [submit_test]: the committed database after the request, and the
    response or the exception that reached the caller. *)
Definition submit_test (db : Database) (student_id test_id : Z)
    (test_submission : TestSubmission.t) (clock : Clock)
    : Database * result SubmitResponse.t :=
  match submit_test_session db student_id test_id test_submission clock with
  | Ok (db', response) => (db', Ok response)
  | Raise e => (db, Raise e)
  end.

(** Lines 201-207. *)
Definition test_datum (test : TestResult.t) : TestData.t :=
  TestData.mk (TestResult.completed_at test) (TestResult.score test)
    (dict_keys (TestResult.topics_summary test)) (TestResult.time_taken test)
    (Insights.analysis (TestResult.ai_feedback test)).

Definition get_student_performance (db : Database) (student_id : Z)
    : result PerformanceResponse.t :=
  match student_analytics db !! student_id with
  | None => Raise (HTTPException 404 "Student analytics not found")
  | Some analytics =>
      let recent_tests := recent_results db student_id 10 in
      let test_data := map test_datum recent_tests in
      let performance_chart :=
        match test_data with
        | [] => None
        | _ :: _ => Some (plot_to_json test_data)
        end in
      Ok (PerformanceResponse.mk
            (OverallStats.mk
               (StudentAnalytics.total_tests_taken analytics)
               (StudentAnalytics.average_test_score analytics)
               (StudentAnalytics.learning_streak analytics)
               (StudentAnalytics.weak_topics analytics)
               (StudentAnalytics.strong_topics analytics)
               (StudentAnalytics.last_activity analytics))
            test_data performance_chart)
  end.
End router.

(** ** Reference notions the properties are stated with *)

(** The detail record stored for a question. *)
Definition detail_of (q : QuestionSubmission.t) : QuestionDetail.t :=
  QuestionDetail.mk (QuestionSubmission.question_text q)
    (QuestionSubmission.correct_answer q) (QuestionSubmission.student_answer q)
    (is_correct q).

(** Number of questions of a topic, and of correctly answered ones. *)
Definition has_topic (t : string) (q : QuestionSubmission.t) : bool :=
  bool_decide (QuestionSubmission.topic q = t).
Definition topic_total (questions : list QuestionSubmission.t) (t : string) : Z :=
  len (List.filter (has_topic t) questions).
Definition topic_correct (questions : list QuestionSubmission.t) (t : string) : Z :=
  len (List.filter is_correct (List.filter (has_topic t) questions)).

(** Accuracy of a topic in a submission, in percent. *)
Definition topic_accuracy (questions : list QuestionSubmission.t) (t : string) : Q :=
  (inject_Z (topic_correct questions t) / inject_Z (topic_total questions t) * 100)%Q.

(** What one question does to the entry of topic [t]. *)
Definition bump (e : TopicEntry.t) (q : QuestionSubmission.t) : TopicEntry.t :=
  TopicEntry.mk (TopicEntry.correct e + (if is_correct q then 1 else 0))
    (TopicEntry.total e + 1) (TopicEntry.questions e ++ [detail_of q]).
Definition absorb (t : string) (o : option TopicEntry.t) (q : QuestionSubmission.t)
    : option TopicEntry.t :=
  if decide (t = QuestionSubmission.topic q) then Some (bump (default TopicEntry.empty o) q) else o.

(** Accuracy of a topic entry, in percent. *)
Definition accuracy_of (e : TopicEntry.t) : Q :=
  (inject_Z (TopicEntry.correct e) / inject_Z (TopicEntry.total e) * 100)%Q.

(** The object the update works on: the stored record, or a new one. *)
Definition analytics_object (db : Database) (student_id : Z) : StudentAnalytics.t :=
  default (StudentAnalytics.new student_id) (student_analytics db !! student_id).

(** Sum of a count over the entries of a dictionary. *)
Definition dict_sum {V} (f : V -> Z) (d : dict V) : Z :=
  foldr (fun item acc => f (snd item) + acc) 0 d.

(** The distinct elements of a list, in the order of their first
    occurrence. *)
Fixpoint first_occurrences (ts : list string) : list string :=
  match ts with
  | [] => []
  | t :: ts' => t :: filter (fun x => x <> t) (first_occurrences ts')
  end.

(** The submitted question a stored [TestQuestion] row stands for. *)
Definition submitted_question (row : TestQuestion.t) : QuestionSubmission.t :=
  QuestionSubmission.mk (TestQuestion.question_text row) (TestQuestion.correct_answer row)
    (TestQuestion.student_answer row) (TestQuestion.topic row) (TestQuestion.subtopic row).

(** ** Sample data *)

Definition q_fractions_right : QuestionSubmission.t :=
  QuestionSubmission.mk "1/2 + 1/4" "3/4" "3/4" "fractions" "addition".
Definition q_fractions_wrong : QuestionSubmission.t :=
  QuestionSubmission.mk "1/2 * 1/4" "1/8" "1/4" "fractions" "multiplication".
Definition q_capital_case : QuestionSubmission.t :=
  QuestionSubmission.mk "Capital of France" "Paris" "paris" "geography" "capitals".
Definition fractions_questions : list QuestionSubmission.t :=
  [q_fractions_right; q_fractions_wrong].

Definition sample_groq_down : string -> result string :=
  fun _ => Raise (CollaboratorError "rate limit").
Definition sample_groq_up : string -> result string :=
  fun _ => Ok "You did well on fractions."%string.
Definition sample_format_1f : Q -> string := fun _ => "0.0"%string.
Definition sample_format_int : Z -> string := fun _ => "0"%string.
Definition sample_json_dumps : dict TopicEntry.t -> string := fun _ => "{}"%string.
Definition sample_plot : list TestData.t -> string := fun _ => "{}"%string.

Definition empty_db : Database := mkDatabase [] [] ∅.
Definition sample_clock : Clock := mkClock 1000 1001 1002.

(** Five geometry questions, three answered correctly (60%). *)
Definition geometry_question (text answer given : string) : QuestionSubmission.t :=
  QuestionSubmission.mk text answer given "geometry" "angles".
Definition geometry_questions : list QuestionSubmission.t :=
  [geometry_question "g1" "90" "90"; geometry_question "g2" "180" "180";
   geometry_question "g3" "60" "45"; geometry_question "g4" "360" "360";
   geometry_question "g5" "30" "60"].
Definition geometry_insights : Insights.t :=
  Insights.mk "analysis" (group_by_topic geometry_questions) 60 300.
Definition fractions_insights : Insights.t :=
  Insights.mk "analysis" (group_by_topic fractions_questions) 50 120.

(** Three questions on two topics, all answered correctly. *)
Definition perfect_questions : list QuestionSubmission.t :=
  [geometry_question "p1" "90" "90"; q_fractions_right; geometry_question "p2" "45" "45"].
Definition perfect_insights : Insights.t :=
  Insights.mk "analysis" (group_by_topic perfect_questions) 100 60.

(** Geometry 4 of 5 (80%), fractions 1 of 2 (50%), algebra 1 of 1. *)
Definition mixed_questions : list QuestionSubmission.t :=
  [geometry_question "m1" "90" "90"; q_fractions_right; geometry_question "m2" "45" "45";
   QuestionSubmission.mk "x + 1 = 2" "1" "1" "algebra" "linear";
   geometry_question "m3" "60" "60"; q_fractions_wrong;
   geometry_question "m4" "30" "30"; geometry_question "m5" "10" "20"].
Definition mixed_insights : Insights.t :=
  Insights.mk "analysis" (group_by_topic mixed_questions) 75 200.

(** Twenty questions on one topic, the first eleven answered correctly. *)
Definition eleven_of_twenty : list QuestionSubmission.t :=
  replicate 11 (geometry_question "e" "90" "90")
  ++ replicate 9 (geometry_question "e" "90" "45").

Definition T0 : datetime := 1700000000000000.

Definition stored_result (id student_id : Z) (score : Q) (completed_at : datetime)
    : TestResult.t :=
  TestResult.mk id student_id 1 score completed_at (Insights.mk "stored" [] score 0) 0 0 [] 0.

(** Student 1 has six stored results (the oldest scored 10, the five after
    it 100, 60, 70, 90, 80 in this order of time), student 2 has one. *)
Definition sample_results : list TestResult.t :=
  [stored_result 1 1 10 (T0 - 600); stored_result 2 1 100 (T0 - 500);
   stored_result 3 2 5 (T0 - 450); stored_result 4 1 60 (T0 - 400);
   stored_result 5 1 70 (T0 - 300); stored_result 6 1 90 (T0 - 200);
   stored_result 7 1 80 (T0 - 100)].

Definition sample_analytics : StudentAnalytics.t :=
  StudentAnalytics.mk 1 (Some 0) (Some 6) (Some 80%Q) (Some ["algebra"]%string) (Some [])
    (Some 3) (Some T0) None.

Definition sample_db : Database :=
  mkDatabase sample_results [] {[ 1 := sample_analytics ]}.

(** A database for the performance query: student 5 has three results
    with different topics, times and analysis texts; student 6 has one. *)
Definition report_entry (correct total : Z) : TopicEntry.t := TopicEntry.mk correct total [].
Definition report_results : list TestResult.t :=
  [TestResult.mk 11 5 1 50 (T0 + 100)
     (Insights.mk "first" [("fractions"%string, report_entry 1 2)] 50 120) 2 1
     [("fractions"%string, report_entry 1 2)] 120;
   TestResult.mk 12 6 1 20 (T0 + 150)
     (Insights.mk "other student" [("algebra"%string, report_entry 1 5)] 20 30) 5 1
     [("algebra"%string, report_entry 1 5)] 30;
   TestResult.mk 13 5 2 100 (T0 + 300)
     (Insights.mk "third" [("geometry"%string, report_entry 2 2);
                           ("algebra"%string, report_entry 1 1)] 100 90) 3 3
     [("geometry"%string, report_entry 2 2); ("algebra"%string, report_entry 1 1)] 90;
   TestResult.mk 14 5 3 75 (T0 + 200)
     (Insights.mk "second" [("geometry"%string, report_entry 3 4)] 75 200) 4 3
     [("geometry"%string, report_entry 3 4)] 200].
Definition report_analytics : StudentAnalytics.t :=
  StudentAnalytics.mk 5 (Some 0) (Some 3) (Some 75%Q) (Some []) (Some ["geometry"]%string)
    (Some 2) (Some (T0 + 300)) None.
Definition report_db : Database :=
  mkDatabase report_results [] {[ 5 := report_analytics ]}.

(** ** Proof steps *)

(** One step through a [bind] of the result monad. *)
Ltac step := cbn [mbind result_bind].

(** ** Basic facts: numbers *)

Lemma Qltb_lt a b : Qltb a b = true <-> (a < b)%Q.
Proof.
  unfold Qltb. rewrite negb_true_iff. split.
  - intros H. apply Qnot_le_lt. intros Hle. apply Qle_bool_iff in Hle. congruence.
  - intros H. destruct (Qle_bool b a) eqn:E; [|done].
    apply Qle_bool_iff in E. exfalso. apply (Qlt_not_le _ _ H E).
Qed.

Lemma Qgeb_le a b : Qgeb a b = true <-> (b <= a)%Q.
Proof. unfold Qgeb. apply Qle_bool_iff. Qed.

Lemma py_truediv_ok a b : ~ (b == 0)%Q -> py_truediv a b = Ok (a / b)%Q.
Proof.
  intros H. unfold py_truediv. destruct (Qeq_bool b 0) eqn:E; [|done].
  apply Qeq_bool_iff in E. contradiction.
Qed.

Lemma py_truediv_zero a : py_truediv a (inject_Z 0) = Raise ZeroDivisionError.
Proof. reflexivity. Qed.

Lemma inject_Z_nonzero n : n <> 0 -> ~ (inject_Z n == 0)%Q.
Proof. intros H E. unfold Qeq in E. simpl in E. lia. Qed.

Lemma len_cons {A} (x : A) xs : len (x :: xs) = 1 + len xs.
Proof. unfold len. simpl length. lia. Qed.

Lemma len_nonneg {A} (xs : list A) : 0 <= len xs.
Proof. unfold len. lia. Qed.

Lemma len_pos {A} (xs : list A) : xs <> [] -> 0 < len xs.
Proof. destruct xs; [done|]. rewrite len_cons. pose proof (len_nonneg xs). lia. Qed.

Lemma py_sum_int_ones {A} (xs : list A) : py_sum_int (map (fun _ => 1) xs) = len xs.
Proof.
  unfold py_sum_int.
  assert (G : forall acc, fold_left Z.add (map (fun _ : A => 1) xs) acc = acc + len xs).
  { induction xs as [|x xs IH]; intros acc.
    - unfold len. simpl. lia.
    - simpl fold_left. rewrite IH, len_cons. lia. }
  apply G.
Qed.

Lemma py_sum_fold_right xs : (py_sum xs == fold_right Qplus 0 xs)%Q.
Proof.
  unfold py_sum.
  assert (G : forall acc, (fold_left Qplus xs acc == acc + fold_right Qplus 0 xs)%Q).
  { induction xs as [|x xs IH]; intros acc; simpl.
    - ring.
    - rewrite IH. ring. }
  rewrite G. ring.
Qed.

(** ** Basic facts: dictionaries *)

Section dict_facts.
Context {V : Type}.
Implicit Types (d : dict V) (k : string) (v : V).

Lemma dict_get_set k k' v d :
  dict_get k (dict_set k' v d) = if decide (k = k') then Some v else dict_get k d.
Proof.
  induction d as [|[k0 v0] d IH]; simpl.
  - repeat case_decide; congruence.
  - destruct (decide (k' = k0)) as [->|Hne]; simpl.
    + repeat case_decide; congruence.
    + rewrite IH. repeat case_decide; congruence.
Qed.

Lemma dict_keys_set k v d :
  dict_keys (dict_set k v d) =
    if decide (k ∈ dict_keys d) then dict_keys d else dict_keys d ++ [k].
Proof.
  induction d as [|[k0 v0] d IH].
  - simpl. destruct (decide (k ∈ [])) as [H|H]; [by apply elem_of_nil in H|].
    done.
  - simpl dict_set. destruct (decide (k = k0)) as [->|Hne]; simpl.
    + rewrite decide_True; [done|]. apply list_elem_of_here.
    + unfold dict_keys in *. rewrite IH.
      destruct (decide (k ∈ map fst d)) as [Hin|Hnin].
      * rewrite decide_True; [done|]. by apply list_elem_of_further.
      * rewrite decide_False; [done|]. intros Hin. apply elem_of_cons in Hin.
        destruct Hin; congruence.
Qed.

Lemma dict_keys_set_NoDup k v d : NoDup (dict_keys d) -> NoDup (dict_keys (dict_set k v d)).
Proof.
  intros H. rewrite dict_keys_set. case_decide; [done|].
  apply NoDup_app. split_and!; [done| |apply NoDup_singleton].
  intros x Hx Hx'. apply list_elem_of_singleton in Hx'. congruence.
Qed.

Lemma dict_get_None_keys k d : dict_get k d = None <-> k ∉ dict_keys d.
Proof.
  induction d as [|[k0 v0] d IH]; simpl.
  - split; [intros _; apply not_elem_of_nil|done].
  - case_decide as Hk.
    + subst. split; [done|]. intros H. exfalso. apply H, list_elem_of_here.
    + rewrite IH. unfold dict_keys. rewrite not_elem_of_cons. tauto.
Qed.

Lemma dict_get_elem_of k v d : dict_get k d = Some v -> (k, v) ∈ d.
Proof.
  induction d as [|[k0 v0] d IH]; simpl; [done|].
  case_decide as Hk.
  - intros [= ->]. subst. apply list_elem_of_here.
  - intros H. apply list_elem_of_further. auto.
Qed.

Lemma dict_elem_of_get k v d : NoDup (dict_keys d) -> (k, v) ∈ d -> dict_get k d = Some v.
Proof.
  induction d as [|[k0 v0] d IH]; simpl; intros Hnd Hin.
  - by apply elem_of_nil in Hin.
  - apply NoDup_cons in Hnd as [Hk0 Hnd]. apply elem_of_cons in Hin as [[= -> ->]|Hin].
    + by rewrite decide_True.
    + case_decide as Hk; [|by apply IH].
      subst. exfalso. apply Hk0. unfold dict_keys.
      apply (list_elem_of_fmap_2 fst) in Hin. exact Hin.
Qed.
End dict_facts.

(** ** Basic facts: grouping by topic *)

Lemma dict_get_tally t tp q : dict_get t (tally tp q) = absorb t (dict_get t tp) q.
Proof.
  unfold tally, absorb.
  destruct (dict_get (QuestionSubmission.topic q) tp) as [e|] eqn:E.
  - rewrite E, dict_get_set. case_decide; [subst; by rewrite E|done].
  - rewrite dict_get_set, decide_True by done. rewrite !dict_get_set.
    case_decide; [subst; by rewrite E|done].
Qed.

Lemma dict_get_fold_tally t qs tp :
  dict_get t (fold_left tally qs tp) = fold_left (absorb t) qs (dict_get t tp).
Proof.
  revert tp. induction qs as [|q qs IH]; intros tp; simpl; [done|].
  by rewrite IH, dict_get_tally.
Qed.

Lemma tally_keys_NoDup tp q : NoDup (dict_keys tp) -> NoDup (dict_keys (tally tp q)).
Proof.
  intros H. unfold tally.
  destruct (dict_get (QuestionSubmission.topic q) tp) as [e|] eqn:E.
  - rewrite E. by apply dict_keys_set_NoDup.
  - rewrite dict_get_set, decide_True by done.
    by do 2 apply dict_keys_set_NoDup.
Qed.

Lemma group_by_topic_NoDup qs : NoDup (dict_keys (group_by_topic qs)).
Proof.
  unfold group_by_topic.
  assert (G : forall tp, NoDup (dict_keys tp) -> NoDup (dict_keys (fold_left tally qs tp))).
  { induction qs as [|q qs IH]; intros tp H; simpl; [done|].
    by apply IH, tally_keys_NoDup. }
  apply G. apply NoDup_nil_2.
Qed.

Lemma absorb_same o q :
  absorb (QuestionSubmission.topic q) o q = Some (bump (default TopicEntry.empty o) q).
Proof. unfold absorb. by rewrite decide_True. Qed.

Lemma absorb_other t o q : t <> QuestionSubmission.topic q -> absorb t o q = o.
Proof. intros H. unfold absorb. by rewrite decide_False. Qed.

Lemma filter_has_topic_same q qs :
  List.filter (has_topic (QuestionSubmission.topic q)) (q :: qs)
    = q :: List.filter (has_topic (QuestionSubmission.topic q)) qs.
Proof. simpl. unfold has_topic at 1. by rewrite bool_decide_eq_true_2. Qed.

Lemma filter_has_topic_other t q qs :
  t <> QuestionSubmission.topic q ->
  List.filter (has_topic t) (q :: qs) = List.filter (has_topic t) qs.
Proof. intros H. simpl. unfold has_topic at 1. by rewrite bool_decide_eq_false_2. Qed.

(** The entry of topic [t] after a run of the loop. *)
Lemma absorb_fold_spec t qs o :
  let r := fold_left (absorb t) qs o in
  (is_Some r <-> is_Some o \/ t ∈ map QuestionSubmission.topic qs) /\
  TopicEntry.total (default TopicEntry.empty r)
    = TopicEntry.total (default TopicEntry.empty o) + topic_total qs t /\
  TopicEntry.correct (default TopicEntry.empty r)
    = TopicEntry.correct (default TopicEntry.empty o) + topic_correct qs t /\
  TopicEntry.questions (default TopicEntry.empty r)
    = TopicEntry.questions (default TopicEntry.empty o)
        ++ map detail_of (List.filter (has_topic t) qs).
Proof.
  revert o. induction qs as [|q qs IH]; intros o.
  - unfold topic_total, topic_correct, len. simpl. split_and!.
    + split; [auto|]. intros [H|H]; [done|]. by apply elem_of_nil in H.
    + lia.
    + lia.
    + by rewrite app_nil_r.
  - specialize (IH (absorb t o q)). cbv zeta in IH |- *.
    destruct IH as (IH1 & IH2 & IH3 & IH4).
    unfold topic_total, topic_correct in *.
    destruct (decide (t = QuestionSubmission.topic q)) as [->|Hne].
    + rewrite filter_has_topic_same. simpl fold_left. simpl (map _ (_ :: _)).
      rewrite absorb_same in *. simpl default in *.
      split_and!.
      * rewrite IH1. split; [intros _; right; apply list_elem_of_here|].
        intros _. left. by eexists.
      * rewrite IH2. simpl. rewrite len_cons. lia.
      * rewrite IH3. simpl. destruct (is_correct q); rewrite ?len_cons; lia.
      * rewrite IH4. simpl. by rewrite <- app_assoc.
    + rewrite filter_has_topic_other by done. simpl fold_left. simpl (map _ (_ :: _)).
      rewrite absorb_other in * by done.
      split_and!; [|done..].
      rewrite IH1. rewrite elem_of_cons. tauto.
Qed.

Lemma group_by_topic_get qs t :
  dict_get t (group_by_topic qs) = fold_left (absorb t) qs None.
Proof. unfold group_by_topic. by rewrite dict_get_fold_tally. Qed.

Lemma group_by_topic_keys qs t :
  t ∈ dict_keys (group_by_topic qs) <-> t ∈ map QuestionSubmission.topic qs.
Proof.
  destruct (absorb_fold_spec t qs None) as (H & _). cbv zeta in H.
  rewrite <- group_by_topic_get in H.
  split.
  - intros Hin. destruct (dict_get t (group_by_topic qs)) as [e|] eqn:E.
    + destruct H as [H _]. destruct H as [[? [=]]|H]; [by eexists|done].
    + apply dict_get_None_keys in E. contradiction.
  - intros Hin. destruct (dict_get t (group_by_topic qs)) as [e|] eqn:E.
    + apply dict_get_elem_of in E. apply (list_elem_of_fmap_2 fst) in E. exact E.
    + destruct H as [_ H]. destruct H as [? [=]]. by right.
Qed.

Lemma group_by_topic_entry qs t e :
  (t, e) ∈ group_by_topic qs ->
  t ∈ map QuestionSubmission.topic qs /\
  TopicEntry.total e = topic_total qs t /\
  TopicEntry.correct e = topic_correct qs t /\
  TopicEntry.questions e = map detail_of (List.filter (has_topic t) qs).
Proof.
  intros Hin. split.
  { apply group_by_topic_keys. apply (list_elem_of_fmap_2 fst) in Hin. exact Hin. }
  apply dict_elem_of_get in Hin; [|apply group_by_topic_NoDup].
  destruct (absorb_fold_spec t qs None) as (_ & H2 & H3 & H4). cbv zeta in *.
  rewrite <- group_by_topic_get, Hin in H2, H3, H4. simpl in H2, H3, H4.
  split_and!; [lia|lia|done].
Qed.

Lemma topic_total_pos qs t : t ∈ map QuestionSubmission.topic qs -> 0 < topic_total qs t.
Proof.
  intros Hin. apply list_elem_of_fmap in Hin as (q & -> & Hq).
  unfold topic_total. apply len_pos. intros E.
  assert (Hq' : In q (List.filter (has_topic (QuestionSubmission.topic q)) qs)).
  { apply filter_In. split; [by apply list_elem_of_In|].
    unfold has_topic. by apply bool_decide_eq_true_2. }
  rewrite E in Hq'. destruct Hq'.
Qed.

(** ** Basic facts: the analytics update *)

Lemma dict_set_fresh {V} k (v : V) d : k ∉ dict_keys d -> dict_set k v d = d ++ [(k, v)].
Proof.
  induction d as [|[k0 v0] d IH]; simpl; intros H; [done|].
  apply not_elem_of_cons in H as [Hne H].
  rewrite decide_False by done. by rewrite IH.
Qed.

Lemma for_each_topic_strength_NoDup items acc ts :
  NoDup (dict_keys acc) ->
  for_each topic_strength items acc = Ok ts -> NoDup (dict_keys ts).
Proof.
  revert acc. induction items as [|[k e] items IH]; intros acc Hnd; simpl.
  - by intros [= <-].
  - destruct (py_truediv _ _) as [r|]; simpl; [|done].
    apply IH. by apply dict_keys_set_NoDup.
Qed.

Lemma for_each_topic_strength_map items acc :
  NoDup (dict_keys acc ++ dict_keys items) ->
  Forall (fun item => TopicEntry.total (snd item) <> 0) items ->
  for_each topic_strength items acc
    = Ok (acc ++ map (fun item => (fst item, accuracy_of (snd item))) items).
Proof.
  revert acc. induction items as [|[k e] items IH]; intros acc Hnd Hall; simpl.
  - by rewrite app_nil_r.
  - apply Forall_cons in Hall as [He Hall]. simpl in He.
    rewrite py_truediv_ok by (by apply inject_Z_nonzero). simpl.
    assert (Hk : k ∉ dict_keys acc).
    { apply NoDup_app in Hnd as (_ & Hd & _). intros Hin. apply (Hd k Hin).
      apply list_elem_of_here. }
    rewrite (dict_set_fresh k _ acc Hk).
    rewrite IH; [by rewrite <- app_assoc|..|done].
    unfold dict_keys in *. rewrite map_app, <- app_assoc. exact Hnd.
Qed.

Lemma elem_of_weak_of ts t : t ∈ weak_of ts <-> exists s, (t, s) ∈ ts /\ (s < 70)%Q.
Proof.
  unfold weak_of. rewrite list_elem_of_fmap. split.
  - intros ([k s] & -> & Hin). apply list_elem_of_In, filter_In in Hin as [Hin Hs].
    exists s. split; [by apply list_elem_of_In|]. by apply Qltb_lt.
  - intros (s & Hin & Hs). exists (t, s). split; [done|].
    apply list_elem_of_In, filter_In. split; [by apply list_elem_of_In|]. by apply Qltb_lt.
Qed.

Lemma elem_of_strong_of ts t : t ∈ strong_of ts <-> exists s, (t, s) ∈ ts /\ (90 <= s)%Q.
Proof.
  unfold strong_of. rewrite list_elem_of_fmap. split.
  - intros ([k s] & -> & Hin). apply list_elem_of_In, filter_In in Hin as [Hin Hs].
    exists s. split; [by apply list_elem_of_In|]. by apply Qgeb_le.
  - intros (s & Hin & Hs). exists (t, s). split; [done|].
    apply list_elem_of_In, filter_In. split; [by apply list_elem_of_In|]. by apply Qgeb_le.
Qed.

(** The update in one piece: the record it builds, given the outcome of
    its three steps that may raise. *)
Lemma update_student_analytics_unfold db sid prev insights now1 now2 :
  update_student_analytics db sid prev insights now1 now2 =
    let analytics := analytics_object db sid in
    let all_scores := map TestResult.score prev ++ [Insights.score insights] in
    tests ← py_iadd (StudentAnalytics.total_tests_taken analytics) 1;
    topic_strengths ← for_each topic_strength (Insights.topic_performance insights) [];
    streak ← (if now2 - now1 <=? timedelta_days 1
              then py_iadd (StudentAnalytics.learning_streak analytics) 1
              else Ok 1);
    Ok (StudentAnalytics.mk (StudentAnalytics.student_id analytics)
          (StudentAnalytics.total_flashcards_viewed analytics)
          (Some tests)
          (Some (py_sum all_scores / inject_Z (len all_scores))%Q)
          (Some (weak_of topic_strengths)) (Some (strong_of topic_strengths))
          (Some streak) (Some now1)
          (StudentAnalytics.historical_performance analytics)).
Proof.
  unfold update_student_analytics, analytics_object.
  destruct (student_analytics db !! sid) as [a|]; simpl default.
  2: { reflexivity. }
  destruct (py_iadd (StudentAnalytics.total_tests_taken a) 1) as [tests|e]; [|done].
  step.
  rewrite py_truediv_ok.
  2: { apply inject_Z_nonzero. unfold len. rewrite length_app. simpl. lia. }
  step.
  by destruct (for_each _ _ _).
Qed.

(** ** Basic facts: the scoring block *)

Lemma is_correct_eq q :
  is_correct q = true
  <-> QuestionSubmission.student_answer q = QuestionSubmission.correct_answer q.
Proof. unfold is_correct. apply String.eqb_eq. Qed.

Lemma is_correct_decide q :
  is_correct q
  = bool_decide (QuestionSubmission.student_answer q = QuestionSubmission.correct_answer q).
Proof.
  destruct (is_correct q) eqn:E.
  - apply is_correct_eq in E. by rewrite bool_decide_eq_true_2.
  - rewrite bool_decide_eq_false_2; [done|]. intros H. apply is_correct_eq in H. congruence.
Qed.

Lemma count_correct_len qs : count_correct qs = len (List.filter is_correct qs).
Proof. unfold count_correct. apply py_sum_int_ones. Qed.

Lemma score_questions_ok qs :
  qs <> [] ->
  score_questions qs
    = Ok (Scoring.mk (count_correct qs) (len qs)
            (inject_Z (count_correct qs) / inject_Z (len qs) * 100)%Q
            (group_by_topic qs)).
Proof.
  intros H. unfold score_questions. rewrite py_truediv_ok; [done|].
  apply inject_Z_nonzero. pose proof (len_pos qs H). lia.
Qed.

Lemma score_questions_empty : score_questions [] = Raise ZeroDivisionError.
Proof. reflexivity. Qed.

Lemma historical_context_ok f1 score prev :
  exists context, historical_context f1 score prev = Ok context.
Proof.
  unfold historical_context. destruct prev as [|r prev]; [by eexists|].
  rewrite py_truediv_ok.
  - step. destruct (Qltb _ _); by eexists.
  - apply inject_Z_nonzero. rewrite len_cons. pose proof (len_nonneg prev). lia.
Qed.

(** The composer stops at the first [questions[0].time_taken]. *)
Lemma generate_ai_insights_raises groq f1 fi jd qs prev :
  generate_ai_insights groq f1 fi jd qs prev
    = Raise (match qs with
             | [] => ZeroDivisionError
             | _ :: _ => AttributeError "QuestionSubmission" "time_taken"
             end).
Proof.
  unfold generate_ai_insights. destruct qs as [|q qs]; [done|].
  rewrite score_questions_ok by done. step.
  destruct (historical_context_ok f1
              (inject_Z (count_correct (q :: qs)) / inject_Z (len (q :: qs)) * 100)%Q prev)
    as [c Hc].
  cbn [Scoring.score]. rewrite Hc. reflexivity.
Qed.

(** A request whose composer stage raises commits nothing. *)
Lemma submit_test_composer_raises groq f1 fi jd db sid tid sub clock e :
  generate_ai_insights groq f1 fi jd (TestSubmission.questions sub) (recent_results db sid 5)
    = Raise e ->
  submit_test groq f1 fi jd db sid tid sub clock = (db, Raise e).
Proof.
  intros H. unfold submit_test, submit_test_session. by rewrite H.
Qed.

(** ** Scoring *)

(** Exact string equality: a different capitalisation is a wrong answer. *)
Example is_correct_case_sensitive : is_correct q_capital_case = false.
Proof. reflexivity. Qed.

(** The parts of the scoring block that do not depend on how the score is
    rounded. *)
Lemma scoring_counts_and_flags (questions : list QuestionSubmission.t) :
  (forall q, is_correct q = true
     <-> QuestionSubmission.student_answer q = QuestionSubmission.correct_answer q) /\
  count_correct questions
    = len (List.filter
             (fun q => bool_decide (QuestionSubmission.student_answer q
                                    = QuestionSubmission.correct_answer q)) questions) /\
  (forall q, q ∈ questions ->
     exists e, dict_get (QuestionSubmission.topic q) (group_by_topic questions) = Some e /\
       QuestionDetail.mk (QuestionSubmission.question_text q)
         (QuestionSubmission.correct_answer q) (QuestionSubmission.student_answer q)
         (bool_decide (QuestionSubmission.student_answer q
                       = QuestionSubmission.correct_answer q))
         ∈ TopicEntry.questions e) /\
  (forall t e d, (t, e) ∈ group_by_topic questions -> d ∈ TopicEntry.questions e ->
     QuestionDetail.is_correct d
     = bool_decide (QuestionDetail.student_answer d = QuestionDetail.correct_answer d)).
Proof.
  split_and!.
  - apply is_correct_eq.
  - rewrite count_correct_len. f_equal. apply List.filter_ext. intros q. apply is_correct_decide.
  - intros q Hq.
    destruct (absorb_fold_spec (QuestionSubmission.topic q) questions None)
      as (H1 & _ & _ & H4). cbv zeta in H1, H4.
    rewrite <- group_by_topic_get in H1, H4.
    destruct H1 as [_ H1]. destruct H1 as [e He].
    { right. by apply list_elem_of_fmap_2. }
    exists e. split; [done|]. rewrite He in H4. simpl in H4. rewrite H4.
    rewrite <- is_correct_decide. apply (list_elem_of_fmap_2 detail_of).
    apply list_elem_of_In, filter_In. split; [by apply list_elem_of_In|].
    unfold has_topic. by apply bool_decide_eq_true_2.
  - intros t e d Hin Hd. apply group_by_topic_entry in Hin as (_ & _ & _ & Hq).
    rewrite Hq in Hd. apply list_elem_of_fmap in Hd as (q & -> & _).
    apply is_correct_decide.
Qed.

(** C7 (as amended). For a non-empty list of answered questions the
    scoring block succeeds; a question counts as correct exactly when
    [student_answer] and [correct_answer] are the same string, and this
    flag is the one stored with every question in the topic mapping;
    [correct_count] is the number of such questions, [total_questions] the
    number of questions, and the score is the binary64 product of the
    binary64 quotient [correct_count / total_questions] and [100]. *)
Theorem C7_scoring_binary64 (questions : list QuestionSubmission.t) :
  questions <> [] ->
  len questions < 2 ^ 53 ->
  exists s, score_questions_binary64 questions = Ok s /\
    (forall q, is_correct q = true
       <-> QuestionSubmission.student_answer q = QuestionSubmission.correct_answer q) /\
    Scoring64.total_questions s = len questions /\
    Scoring64.correct_count s
      = len (List.filter
               (fun q => bool_decide (QuestionSubmission.student_answer q
                                      = QuestionSubmission.correct_answer q)) questions) /\
    Scoring64.score s
      = PrimFloat.mul
          (PrimFloat.div (float_of_int (Scoring64.correct_count s))
                         (float_of_int (Scoring64.total_questions s)))
          (float_of_int 100) /\
    (forall q, q ∈ questions ->
       exists e, dict_get (QuestionSubmission.topic q) (Scoring64.topic_performance s) = Some e /\
         QuestionDetail.mk (QuestionSubmission.question_text q)
           (QuestionSubmission.correct_answer q) (QuestionSubmission.student_answer q)
           (bool_decide (QuestionSubmission.student_answer q
                         = QuestionSubmission.correct_answer q))
           ∈ TopicEntry.questions e) /\
    (forall t e d, (t, e) ∈ Scoring64.topic_performance s -> d ∈ TopicEntry.questions e ->
       QuestionDetail.is_correct d
       = bool_decide (QuestionDetail.student_answer d = QuestionDetail.correct_answer d)).
Proof.
  intros Hne _. pose proof (len_pos questions Hne) as Hpos.
  destruct (scoring_counts_and_flags questions) as (Heq & Hcount & Hdetail & Hflags).
  eexists. split.
  { unfold score_questions_binary64, py_int_truediv.
    destruct (len questions =? 0) eqn:E; [lia|]. step. reflexivity. }
  cbn [Scoring64.total_questions Scoring64.correct_count Scoring64.score
       Scoring64.topic_performance].
  split_and!; done.
Qed.

Lemma C7_scoring_binary64_witness :
  exists s, score_questions_binary64 fractions_questions = Ok s /\
    Scoring64.correct_count s = 1 /\ Scoring64.total_questions s = 2 /\
    PrimFloat.eqb (Scoring64.score s) (float_of_int 50) = true.
Proof.
  destruct (C7_scoring_binary64 fractions_questions) as (s & Hs & _ & Ht & Hc & Hq & _);
    [discriminate|reflexivity|].
  exists s. split; [exact Hs|].
  assert (Hc' : Scoring64.correct_count s = 1) by (rewrite Hc; reflexivity).
  assert (Ht' : Scoring64.total_questions s = 2) by (rewrite Ht; reflexivity).
  split; [exact Hc'|]. split; [exact Ht'|].
  rewrite Hq, Hc', Ht'. reflexivity.
Defined.

(** With 11 correct answers out of 20 the score of the code is
    [55.00000000000001], above [100 * 11 / 20 = 55] (which binary64 holds
    exactly, and which [100 * 11 / 20] evaluates to in Python). *)
Lemma C7_score_11_of_20_is_not_55 :
  exists s, score_questions_binary64 eleven_of_twenty = Ok s /\
    Scoring64.correct_count s = 11 /\ Scoring64.total_questions s = 20 /\
    PrimFloat.eqb (Scoring64.score s) (float_of_int 55) = false /\
    PrimFloat.ltb (float_of_int 55) (Scoring64.score s) = true /\
    PrimFloat.eqb (PrimFloat.div (float_of_int (100 * 11)) (float_of_int 20))
      (float_of_int 55) = true.
Proof.
  eexists. split; [vm_compute; reflexivity|].
  cbn [Scoring64.correct_count Scoring64.total_questions Scoring64.score].
  split_and!; vm_compute; reflexivity.
Qed.

(** ** The insight composer *)

(** C2. For every non-empty question list the composer raises
    [AttributeError] when it reads [time_taken] from the first question:
    it returns no payload, whatever the submission's [time_taken] is and
    whatever the collaborator would answer. *)
Theorem C2_composer_reads_time_taken_from_question groq f1 fi jd
    (q : QuestionSubmission.t) (questions : list QuestionSubmission.t)
    (previous_results : list TestResult.t) :
  generate_ai_insights groq f1 fi jd (q :: questions) previous_results
    = Raise (AttributeError "QuestionSubmission" "time_taken").
Proof. apply generate_ai_insights_raises. Qed.

(** The handler then answers every non-empty submission with that
    exception and commits nothing. *)
Lemma submit_test_nonempty_raises groq f1 fi jd db sid tid q qs seconds clock :
  submit_test groq f1 fi jd db sid tid (TestSubmission.mk (q :: qs) seconds) clock
    = (db, Raise (AttributeError "QuestionSubmission" "time_taken")).
Proof. apply submit_test_composer_raises. apply generate_ai_insights_raises. Qed.

(** The two-question submission of the sample data, with a collaborator
    that answers: the request still ends in the exception. *)
Example submit_fractions_raises :
  submit_test sample_groq_up sample_format_1f sample_format_int sample_json_dumps
    sample_db 1 7 (TestSubmission.mk fractions_questions 120) sample_clock
  = (sample_db, Raise (AttributeError "QuestionSubmission" "time_taken")).
Proof. apply submit_test_nonempty_raises. Qed.

(** No request of [submit_test] commits anything. *)
Lemma submit_test_always_raises groq f1 fi jd db sid tid sub clock :
  exists e, submit_test groq f1 fi jd db sid tid sub clock = (db, Raise e).
Proof.
  eexists. apply submit_test_composer_raises. apply generate_ai_insights_raises.
Qed.

(** C3. A submission with an empty question list is not rejected before
    scoring: the score's division raises [ZeroDivisionError], which reaches
    the caller; the committed database, and so the student's analytics
    record, is unchanged. *)
Theorem C3_empty_submission_divides_by_zero groq f1 fi jd (db : Database)
    (student_id test_id seconds : Z) (clock : Clock) :
  submit_test groq f1 fi jd db student_id test_id (TestSubmission.mk [] seconds) clock
    = (db, Raise ZeroDivisionError).
Proof. apply submit_test_composer_raises. apply generate_ai_insights_raises. Qed.


(** ** The analytics update *)

Lemma topic_strengths_of_group qs :
  for_each topic_strength (group_by_topic qs) []
    = Ok (map (fun item => (fst item, accuracy_of (snd item))) (group_by_topic qs)).
Proof.
  rewrite for_each_topic_strength_map; [done|apply group_by_topic_NoDup|].
  apply Forall_forall. intros [t e] Hin. simpl.
  apply group_by_topic_entry in Hin as (Ht & Htot & _).
  rewrite Htot. pose proof (topic_total_pos qs t Ht). lia.
Qed.

Lemma group_strength_elem_of qs t s :
  (t, s) ∈ map (fun item => (fst item, accuracy_of (snd item))) (group_by_topic qs)
  <-> t ∈ map QuestionSubmission.topic qs /\ s = topic_accuracy qs t.
Proof.
  rewrite list_elem_of_fmap. split.
  - intros ([t' e] & [= -> ->] & Hin). simpl.
    apply group_by_topic_entry in Hin as (Ht & Htot & Hcor & _).
    split; [done|]. unfold accuracy_of, topic_accuracy. by rewrite Htot, Hcor.
  - intros [Ht ->]. apply group_by_topic_keys in Ht.
    apply list_elem_of_fmap in Ht as ([t' e] & -> & Hin). simpl.
    exists (t', e). split; [|done]. simpl. f_equal.
    apply group_by_topic_entry in Hin as (_ & Htot & Hcor & _).
    unfold accuracy_of, topic_accuracy. by rewrite Htot, Hcor.
Qed.

(** The update succeeds on an existing record with its counters set, for
    the payload of a question list. *)
Lemma update_student_analytics_existing db sid prev insights now1 now2 a n k qs :
  student_analytics db !! sid = Some a ->
  StudentAnalytics.total_tests_taken a = Some n ->
  StudentAnalytics.learning_streak a = Some k ->
  Insights.topic_performance insights = group_by_topic qs ->
  update_student_analytics db sid prev insights now1 now2 =
    let all_scores := map TestResult.score prev ++ [Insights.score insights] in
    let topic_strengths :=
      map (fun item => (fst item, accuracy_of (snd item))) (group_by_topic qs) in
    Ok (StudentAnalytics.mk (StudentAnalytics.student_id a)
          (StudentAnalytics.total_flashcards_viewed a)
          (Some (n + 1))
          (Some (py_sum all_scores / inject_Z (len all_scores))%Q)
          (Some (weak_of topic_strengths)) (Some (strong_of topic_strengths))
          (Some (if now2 - now1 <=? timedelta_days 1 then k + 1 else 1)) (Some now1)
          (StudentAnalytics.historical_performance a)).
Proof.
  intros Ha Hn Hk Htp. rewrite update_student_analytics_unfold.
  unfold analytics_object. rewrite Ha. simpl default. cbv zeta.
  rewrite Hn, Hk, Htp, topic_strengths_of_group. cbn [py_iadd]; step.
  by destruct (now2 - now1 <=? timedelta_days 1).
Qed.

(** The streak after an update never depends on the stored
    [last_activity]: the gap is taken from the timestamp written at line
    148 of the same request. *)
Lemma streak_gap_is_between_clock_readings db sid prev insights now1 now2 a a' :
  student_analytics db !! sid = Some a ->
  update_student_analytics db sid prev insights now1 now2 = Ok a' ->
  StudentAnalytics.learning_streak a'
    = if now2 - now1 <=? timedelta_days 1
      then (fun k => k + 1) <$> StudentAnalytics.learning_streak a
      else Some 1.
Proof.
  intros Ha. rewrite update_student_analytics_unfold.
  unfold analytics_object. rewrite Ha. simpl default. cbv zeta.
  destruct (py_iadd (StudentAnalytics.total_tests_taken a) 1); [|done].
  step. destruct (for_each _ _ _); [|done].
  step. destruct (now2 - now1 <=? timedelta_days 1).
  - destruct (StudentAnalytics.learning_streak a); [|done]. by intros [= <-].
  - by intros [= <-].
Qed.

(** ** Basic facts: queries *)

#[global] Instance more_recent_trans : Transitive more_recent.
Proof. unfold more_recent. intros x y z ??. lia. Qed.

#[global] Instance more_recent_total : Total more_recent.
Proof. unfold more_recent. intros x y. lia. Qed.

(** [recent_results] returns the [n] most recent rows of the student,
    most recent first: what it leaves out is no more recent than anything
    it returns. *)
Lemma recent_results_spec db sid n :
  let recent := recent_results db sid n in
  StronglySorted more_recent recent /\
  length recent = Nat.min n (length (results_of db sid)) /\
  exists older,
    recent ++ older ≡ₚ results_of db sid /\
    forall r r', r ∈ recent -> r' ∈ older ->
      TestResult.completed_at r' <= TestResult.completed_at r.
Proof.
  unfold recent_results. fold (results_of db sid).
  set (sorted := merge_sort more_recent (results_of db sid)).
  assert (Hs : StronglySorted more_recent sorted).
  { apply StronglySorted_merge_sort; apply _. }
  assert (Hp : sorted ≡ₚ results_of db sid) by apply merge_sort_Permutation.
  rewrite <- (take_drop n sorted) in Hs. cbv zeta. split_and!.
  - by apply StronglySorted_app_1_l in Hs.
  - rewrite length_take. by rewrite Hp.
  - exists (drop n sorted). split; [by rewrite take_drop|].
    intros r r' Hr Hr'. apply (StronglySorted_app_1_elem_of _ _ _ _ _ Hs Hr Hr').
Qed.

(** ** Claims on the analytics update *)

(** C1. The stored record has [last_activity = T0] and a streak of 3; the
    request arrives 25 hours later.  The update returns a streak of 4: the
    gap it tests is the one between its own two clock readings, taken a
    microsecond apart, not the 25 hours since [T0]. *)
Theorem C1_streak_after_25_hours_is_incremented :
  student_analytics sample_db !! 1 = Some sample_analytics /\
  StudentAnalytics.last_activity sample_analytics = Some T0 /\
  StudentAnalytics.learning_streak sample_analytics = Some 3 /\
  exists a',
    update_student_analytics sample_db 1 (recent_results sample_db 1 5) geometry_insights
      (T0 + timedelta_hours 25) (T0 + timedelta_hours 25 + 1) = Ok a' /\
    StudentAnalytics.learning_streak a' = Some 4 /\
    StudentAnalytics.last_activity a' = Some (T0 + timedelta_hours 25).
Proof.
  split_and!; [done..|].
  eexists. split.
  - apply (update_student_analytics_existing sample_db 1 _ geometry_insights _ _
             sample_analytics 6 3 geometry_questions); reflexivity.
  - split; reflexivity.
Qed.

(** C4. For a student without a record the update builds a new object
    whose counters are still [None], and the increment of
    [total_tests_taken] raises [TypeError]: no record with
    [total_tests_taken = 1] results. *)
Theorem C4_first_submission_increments_none (db : Database) (student_id : Z)
    (previous_results : list TestResult.t) (insights : Insights.t)
    (now_148 now_164 : datetime) :
  student_analytics db !! student_id = None ->
  StudentAnalytics.total_tests_taken (StudentAnalytics.new student_id) = None /\
  update_student_analytics db student_id previous_results insights now_148 now_164
    = Raise (TypeError "unsupported operand type(s) for +=: 'NoneType' and 'int'").
Proof.
  intros H. split; [done|]. unfold update_student_analytics. by rewrite H.
Qed.

Lemma C4_first_submission_increments_none_witness :
  StudentAnalytics.total_tests_taken (StudentAnalytics.new 1) = None /\
  update_student_analytics empty_db 1 [] fractions_insights 1001 1002
    = Raise (TypeError "unsupported operand type(s) for +=: 'NoneType' and 'int'").
Proof.
  apply (C4_first_submission_increments_none empty_db 1 [] fractions_insights 1001 1002).
  reflexivity.
Defined.

(** C5. Student 1 has the five most recent scores 80, 90, 70, 60, 100
    and a stored average of 80; the submission scores 50.  The request
    ends in the [AttributeError] of line 67 and commits nothing: the
    stored average is still 80, not the 75 of the six scores. *)
Theorem C5_submission_leaves_average_unchanged groq f1 fi jd (clock : Clock) :
  map TestResult.score (recent_results sample_db 1 5) = [80; 90; 70; 60; 100]%Q /\
  (exists s, score_questions_binary64 fractions_questions = Ok s /\
     PrimFloat.eqb (Scoring64.score s) (float_of_int 50) = true) /\
  let '(db', response) :=
    submit_test groq f1 fi jd sample_db 1 7 (TestSubmission.mk fractions_questions 120) clock in
  response = Raise (AttributeError "QuestionSubmission" "time_taken") /\
  db' = sample_db /\
  (student_analytics db' !! 1) ≫= StudentAnalytics.average_test_score = Some 80%Q.
Proof.
  split; [reflexivity|]. split.
  { eexists. split; [reflexivity|]. reflexivity. }
  unfold fractions_questions. rewrite submit_test_nonempty_raises.
  split; [reflexivity|]. split; reflexivity.
Qed.

(** C6. Student 1 has [weak_topics = ["algebra"]]; the submission holds
    geometry questions only, 60% of them correct.  The request ends in the
    [AttributeError] of line 67 and commits nothing: the stored list is
    still [["algebra"]], not [["geometry"]]. *)
Theorem C6_submission_leaves_topic_lists_unchanged groq f1 fi jd (clock : Clock) :
  map QuestionSubmission.topic geometry_questions = replicate 5 "geometry"%string /\
  (topic_accuracy geometry_questions "geometry" == 60)%Q /\
  let '(db', response) :=
    submit_test groq f1 fi jd sample_db 1 7 (TestSubmission.mk geometry_questions 300) clock in
  response = Raise (AttributeError "QuestionSubmission" "time_taken") /\
  db' = sample_db /\
  (student_analytics db' !! 1) ≫= StudentAnalytics.weak_topics = Some ["algebra"]%string.
Proof.
  split; [reflexivity|]. split; [reflexivity|].
  unfold geometry_questions. rewrite submit_test_nonempty_raises.
  split; [reflexivity|]. split; reflexivity.
Qed.

(** X15. On an existing record, for the topic mapping of a submission,
    the update block writes as [weak_topics] the topics of the submission
    whose accuracy is below 70 and as [strong_topics] those whose accuracy
    is at least 90; nothing of the lists stored before enters the new
    ones, so a topic absent from the submission is in neither. *)
Theorem X15_update_block_classifies_topics (db : Database) (student_id : Z)
    (previous_results : list TestResult.t) (insights : Insights.t)
    (now_148 now_164 : datetime) (a : StudentAnalytics.t) (n k : Z)
    (questions : list QuestionSubmission.t) :
  student_analytics db !! student_id = Some a ->
  StudentAnalytics.total_tests_taken a = Some n ->
  StudentAnalytics.learning_streak a = Some k ->
  Insights.topic_performance insights = group_by_topic questions ->
  exists a' weak strong,
    update_student_analytics db student_id previous_results insights now_148 now_164 = Ok a' /\
    StudentAnalytics.weak_topics a' = Some weak /\
    StudentAnalytics.strong_topics a' = Some strong /\
    (forall t, t ∈ weak
       <-> t ∈ map QuestionSubmission.topic questions /\ (topic_accuracy questions t < 70)%Q) /\
    (forall t, t ∈ strong
       <-> t ∈ map QuestionSubmission.topic questions /\ (90 <= topic_accuracy questions t)%Q) /\
    (forall t, t ∉ map QuestionSubmission.topic questions -> (t ∉ weak) /\ (t ∉ strong)).
Proof.
  intros Ha Hn Hk Htp. eexists _, _, _. split.
  { by apply (update_student_analytics_existing _ _ _ _ _ _ a n k questions). }
  cbn [StudentAnalytics.weak_topics StudentAnalytics.strong_topics].
  split; [reflexivity|]. split; [reflexivity|].
  assert (Hweak : forall t,
    t ∈ weak_of (map (fun item => (fst item, accuracy_of (snd item))) (group_by_topic questions))
    <-> t ∈ map QuestionSubmission.topic questions /\ (topic_accuracy questions t < 70)%Q).
  { intros t. rewrite elem_of_weak_of. split.
    - intros (s & Hin & Hs). apply group_strength_elem_of in Hin as [Ht ->]. done.
    - intros [Ht Hs]. exists (topic_accuracy questions t). split; [|done].
      by apply group_strength_elem_of. }
  assert (Hstrong : forall t,
    t ∈ strong_of (map (fun item => (fst item, accuracy_of (snd item))) (group_by_topic questions))
    <-> t ∈ map QuestionSubmission.topic questions /\ (90 <= topic_accuracy questions t)%Q).
  { intros t. rewrite elem_of_strong_of. split.
    - intros (s & Hin & Hs). apply group_strength_elem_of in Hin as [Ht ->]. done.
    - intros [Ht Hs]. exists (topic_accuracy questions t). split; [|done].
      by apply group_strength_elem_of. }
  split_and!; [exact Hweak|exact Hstrong|].
  intros t Ht. rewrite Hweak, Hstrong. tauto.
Qed.

(** The update block alone, on the same data: [weak_topics] was
    [["algebra"]]; the payload of geometry questions only, 60% correct,
    gives [["geometry"]]. *)
Example weak_topics_replaced_not_merged :
  StudentAnalytics.weak_topics sample_analytics = Some ["algebra"]%string /\
  exists a',
    update_student_analytics sample_db 1 (recent_results sample_db 1 5) geometry_insights
      (T0 + 1000) (T0 + 1001) = Ok a' /\
    StudentAnalytics.weak_topics a' = Some ["geometry"]%string /\
    StudentAnalytics.strong_topics a' = Some [].
Proof.
  split; [done|]. eexists. split.
  - apply (update_student_analytics_existing sample_db 1 _ geometry_insights _ _
             sample_analytics 6 3 geometry_questions); reflexivity.
  - split; reflexivity.
Qed.

Lemma X15_update_block_classifies_topics_witness :
  exists a' weak strong,
    update_student_analytics sample_db 1 (recent_results sample_db 1 5) geometry_insights
      (T0 + 1000) (T0 + 1001) = Ok a' /\
    StudentAnalytics.weak_topics a' = Some weak /\
    StudentAnalytics.strong_topics a' = Some strong /\
    ("geometry" ∈ weak)%string /\ ("algebra" ∉ weak)%string /\ ("algebra" ∉ strong)%string.
Proof.
  destruct (X15_update_block_classifies_topics sample_db 1 (recent_results sample_db 1 5)
              geometry_insights (T0 + 1000) (T0 + 1001) sample_analytics 6 3
              geometry_questions)
    as (a' & weak & strong & Hupd & Hw & Hs & Hweak & _ & Habsent); [reflexivity..|].
  exists a', weak, strong. split; [exact Hupd|]. split; [exact Hw|]. split; [exact Hs|].
  split.
  - apply Hweak. split; [apply list_elem_of_here|reflexivity].
  - apply Habsent. intros Hin. vm_compute in Hin.
    repeat (apply elem_of_cons in Hin as [Hin|Hin]; [discriminate|]).
    by apply elem_of_nil in Hin.
Defined.

(** C10. Whenever the update completes, the weak and the strong list it
    stores have no topic in common. *)
Theorem C10_weak_strong_disjoint (db : Database) (student_id : Z)
    (previous_results : list TestResult.t) (insights : Insights.t)
    (now_148 now_164 : datetime) (a' : StudentAnalytics.t) :
  update_student_analytics db student_id previous_results insights now_148 now_164 = Ok a' ->
  exists weak strong,
    StudentAnalytics.weak_topics a' = Some weak /\
    StudentAnalytics.strong_topics a' = Some strong /\
    forall t, t ∈ weak -> t ∉ strong.
Proof.
  rewrite update_student_analytics_unfold. cbv zeta.
  destruct (py_iadd (StudentAnalytics.total_tests_taken _) 1) as [tests|]; [|done].
  step.
  destruct (for_each topic_strength _ []) as [ts|] eqn:Hts; [|done].
  step.
  assert (Hnd : NoDup (dict_keys ts)).
  { apply (for_each_topic_strength_NoDup (Insights.topic_performance insights) [] ts);
      [apply NoDup_nil_2|exact Hts]. }
  match goal with |- context [mbind _ ?m] => destruct m as [streak|] end; [|done].
  step. intros [= <-].
  exists (weak_of ts), (strong_of ts). split; [done|]. split; [done|].
  intros t Hw Hs. apply elem_of_weak_of in Hw as (s1 & Hin1 & Hlt).
  apply elem_of_strong_of in Hs as (s2 & Hin2 & Hge).
  apply (dict_elem_of_get _ _ _ Hnd) in Hin1, Hin2.
  rewrite Hin1 in Hin2. injection Hin2 as ->. lra.
Qed.

Lemma C10_weak_strong_disjoint_witness :
  exists a' weak strong,
    update_student_analytics sample_db 1 (recent_results sample_db 1 5) geometry_insights
      (T0 + 1000) (T0 + 1001) = Ok a' /\
    StudentAnalytics.weak_topics a' = Some weak /\
    StudentAnalytics.strong_topics a' = Some strong /\
    forall t, t ∈ weak -> t ∉ strong.
Proof.
  assert (Hupd : exists a', update_student_analytics sample_db 1 (recent_results sample_db 1 5)
                   geometry_insights (T0 + 1000) (T0 + 1001) = Ok a').
  { eexists.
    apply (update_student_analytics_existing sample_db 1 _ geometry_insights _ _
             sample_analytics 6 3 geometry_questions); reflexivity. }
  destruct Hupd as [a' Hupd].
  destruct (C10_weak_strong_disjoint _ _ _ _ _ _ _ Hupd) as (weak & strong & Hw & Hs & Hd).
  exists a', weak, strong. auto.
Defined.

(** ** The read-only query *)

Lemma StronglySorted_test_data (rows : list TestResult.t) :
  StronglySorted more_recent rows ->
  StronglySorted (fun d1 d2 => TestData.date d2 <= TestData.date d1) (map test_datum rows).
Proof.
  induction 1 as [|r rows Hs IH Hall]; simpl; constructor; [done|].
  apply Forall_fmap. eapply Forall_impl; [exact Hall|]. intros r' Hr'. exact Hr'.
Qed.

(** C9. Without an analytics record the query raises the 404
    [HTTPException].  With one it returns the record's statistics and one
    entry for each of the student's ten most recent results (all of them if
    there are fewer): the entries carry the date, score, topic names, time
    taken and analysis text of their rows, their dates never increase along
    the list, and no result left out is more recent than an entry; the
    chart is [None] exactly when the student has no result, and the
    rendering of the returned entries otherwise. *)
Theorem C9_performance_query (plot : list TestData.t -> string) (db : Database)
    (student_id : Z) :
  (student_analytics db !! student_id = None ->
   get_student_performance plot db student_id
     = Raise (HTTPException 404 "Student analytics not found")) /\
  (forall a, student_analytics db !! student_id = Some a ->
   exists response recent,
     get_student_performance plot db student_id = Ok response /\
     PerformanceResponse.overall_stats response
       = OverallStats.mk (StudentAnalytics.total_tests_taken a)
           (StudentAnalytics.average_test_score a) (StudentAnalytics.learning_streak a)
           (StudentAnalytics.weak_topics a) (StudentAnalytics.strong_topics a)
           (StudentAnalytics.last_activity a) /\
     Forall2 (fun entry row =>
                TestData.date entry = TestResult.completed_at row /\
                TestData.score entry = TestResult.score row /\
                TestData.topics entry = map fst (TestResult.topics_summary row) /\
                TestData.time_taken entry = TestResult.time_taken row /\
                TestData.insights entry = Insights.analysis (TestResult.ai_feedback row))
       (PerformanceResponse.recent_tests response) recent /\
     length (PerformanceResponse.recent_tests response)
       = Nat.min 10 (length (results_of db student_id)) /\
     StronglySorted (fun d1 d2 => TestData.date d2 <= TestData.date d1)
       (PerformanceResponse.recent_tests response) /\
     (exists older,
        recent ++ older ≡ₚ results_of db student_id /\
        forall entry r', entry ∈ PerformanceResponse.recent_tests response -> r' ∈ older ->
          TestResult.completed_at r' <= TestData.date entry) /\
     (PerformanceResponse.performance_chart response = None
        <-> results_of db student_id = []) /\
     (results_of db student_id <> [] ->
      PerformanceResponse.performance_chart response
        = Some (plot (PerformanceResponse.recent_tests response)))).
Proof.
  unfold get_student_performance. split.
  - by intros ->.
  - intros a ->. eexists _, (recent_results db student_id 10). split; [reflexivity|].
    cbn [PerformanceResponse.overall_stats PerformanceResponse.recent_tests
         PerformanceResponse.performance_chart].
    destruct (recent_results_spec db student_id 10) as (Hsorted & Hlen & older & Hperm & Hold).
    cbv zeta in Hsorted, Hlen.
    split; [reflexivity|]. split.
    { apply Forall2_fmap_l, Forall_Forall2_diag, Forall_forall. intros row _. done. }
    split; [by rewrite length_map|].
    split; [by apply StronglySorted_test_data|]. split.
    { exists older. split; [exact Hperm|]. intros entry r' Hentry Hr'.
      apply list_elem_of_fmap in Hentry as (r & -> & Hr). by apply (Hold r r'). }
    destruct (recent_results db student_id 10) as [|r recent] eqn:E; simpl in Hlen |- *.
    + assert (Hnil : results_of db student_id = []).
      { destruct (results_of db student_id); [done|]. simpl in Hlen. lia. }
      split; [by split|]. intros H. contradiction.
    + assert (Hcons : results_of db student_id <> []).
      { intros Hnil. rewrite Hnil in Hlen. simpl in Hlen. lia. }
      split; [|done]. split; [discriminate|]. intros H. contradiction.
Qed.

Lemma C9_performance_query_witness :
  student_analytics report_db !! 3 = None /\
  get_student_performance sample_plot report_db 3
    = Raise (HTTPException 404 "Student analytics not found") /\
  student_analytics report_db !! 5 = Some report_analytics /\
  exists response,
    get_student_performance sample_plot report_db 5 = Ok response /\
    PerformanceResponse.overall_stats response
      = OverallStats.mk (Some 3) (Some 75%Q) (Some 2) (Some []) (Some ["geometry"]%string)
          (Some (T0 + 300)) /\
    PerformanceResponse.recent_tests response
      = [TestData.mk (T0 + 300) 100 ["geometry"; "algebra"]%string 90 "third";
         TestData.mk (T0 + 200) 75 ["geometry"]%string 200 "second";
         TestData.mk (T0 + 100) 50 ["fractions"]%string 120 "first"] /\
    PerformanceResponse.performance_chart response
      = Some (sample_plot (PerformanceResponse.recent_tests response)).
Proof.
  split; [reflexivity|].
  split; [apply (proj1 (C9_performance_query sample_plot report_db 3)); reflexivity|].
  split; [reflexivity|].
  destruct (proj2 (C9_performance_query sample_plot report_db 5) report_analytics)
    as (response & recent & Hget & Hstats & _ & _ & _ & _ & _ & Hchart); [reflexivity|].
  exists response. split; [exact Hget|]. split; [exact Hstats|].
  split.
  - vm_compute in Hget. injection Hget as <-. reflexivity.
  - apply Hchart. discriminate.
Defined.

(** ** Further properties: the topic mapping *)

Lemma dict_sum_set {V} (f : V -> Z) k (v : V) d :
  dict_sum f (dict_set k v d) = dict_sum f d - from_option f 0 (dict_get k d) + f v.
Proof.
  induction d as [|[k0 v0] d IH]; simpl.
  - lia.
  - destruct (decide (k = k0)) as [->|Hne]; simpl; [lia|]. rewrite IH. lia.
Qed.

Lemma dict_sum_tally (f : TopicEntry.t -> Z) tp q :
  f TopicEntry.empty = 0 ->
  dict_sum f (tally tp q)
    = dict_sum f tp - f (default TopicEntry.empty (dict_get (QuestionSubmission.topic q) tp))
      + f (bump (default TopicEntry.empty (dict_get (QuestionSubmission.topic q) tp)) q).
Proof.
  intros Hf. unfold tally.
  destruct (dict_get (QuestionSubmission.topic q) tp) as [e|] eqn:E.
  - rewrite E, dict_sum_set, E. reflexivity.
  - rewrite dict_get_set, decide_True by done.
    rewrite !dict_sum_set, E, dict_get_set, decide_True by done.
    cbn [from_option default].
    change (TopicEntry.mk _ _ _) with (bump TopicEntry.empty q). lia.
Qed.

(** X1. The tallies of the topic mapping add up: the [total]s of its
    entries sum to the number of questions and the [correct]s to the
    number of correct answers, so every question is counted under exactly
    one topic. *)
Theorem X1_topic_tallies_add_up (questions : list QuestionSubmission.t) :
  dict_sum TopicEntry.total (group_by_topic questions) = len questions /\
  dict_sum TopicEntry.correct (group_by_topic questions) = count_correct questions /\
  dict_sum (fun e => len (TopicEntry.questions e)) (group_by_topic questions) = len questions.
Proof.
  unfold group_by_topic.
  assert (G : forall tp,
    dict_sum TopicEntry.total (fold_left tally questions tp)
      = dict_sum TopicEntry.total tp + len questions /\
    dict_sum TopicEntry.correct (fold_left tally questions tp)
      = dict_sum TopicEntry.correct tp + count_correct questions /\
    dict_sum (fun e => len (TopicEntry.questions e)) (fold_left tally questions tp)
      = dict_sum (fun e => len (TopicEntry.questions e)) tp + len questions).
  { induction questions as [|q qs IH]; intros tp.
    - rewrite count_correct_len. unfold len. simpl. lia.
    - simpl fold_left. destruct (IH (tally tp q)) as (IH1 & IH2 & IH3).
      rewrite IH1, IH2, IH3, !dict_sum_tally by done.
      rewrite !count_correct_len, len_cons. simpl List.filter. unfold bump.
      set (e := default TopicEntry.empty (dict_get (QuestionSubmission.topic q) tp)).
      split_and!.
      + cbn [TopicEntry.total]. lia.
      + cbn [TopicEntry.correct]. destruct (is_correct q); rewrite ?len_cons; lia.
      + cbn [TopicEntry.questions]. unfold len. rewrite length_app. simpl length. lia. }
  destruct (G []) as (G1 & G2 & G3). simpl in G1, G2, G3. auto.
Qed.

Lemma dict_keys_tally tp q :
  dict_keys (tally tp q)
    = if decide (QuestionSubmission.topic q ∈ dict_keys tp)
      then dict_keys tp else dict_keys tp ++ [QuestionSubmission.topic q].
Proof.
  unfold tally.
  destruct (dict_get (QuestionSubmission.topic q) tp) as [e|] eqn:E.
  - rewrite E, dict_keys_set.
    assert (Hin : QuestionSubmission.topic q ∈ dict_keys tp).
    { apply dict_get_elem_of in E. apply (list_elem_of_fmap_2 fst) in E. exact E. }
    by rewrite !decide_True.
  - apply dict_get_None_keys in E.
    rewrite dict_get_set, decide_True by done.
    rewrite !dict_keys_set. rewrite (decide_False _ _ E).
    rewrite decide_True; [done|]. apply elem_of_app. right. apply list_elem_of_here.
Qed.

Lemma first_occurrences_from acc ts :
  fold_left (fun acc t => if decide (t ∈ acc) then acc else acc ++ [t]) ts acc
    = acc ++ filter (fun x => x ∉ acc) (first_occurrences ts).
Proof.
  revert acc. induction ts as [|t ts IH]; intros acc; simpl.
  - by rewrite app_nil_r.
  - rewrite IH. destruct (decide (t ∈ acc)) as [Hin|Hnin].
    + rewrite filter_cons_False by (intros H; by apply H).
      rewrite list_filter_filter. f_equal. apply list_filter_iff. intros x. simpl.
      split; [|by intros [? _]]. intros H. split; [done|]. intros ->. contradiction.
    + rewrite filter_cons_True by done. rewrite <- app_assoc. simpl. do 2 f_equal.
      rewrite list_filter_filter. apply list_filter_iff. intros x. simpl.
      rewrite not_elem_of_app, list_elem_of_singleton. tauto.
Qed.

Lemma group_by_topic_key_order (questions : list QuestionSubmission.t) :
  dict_keys (group_by_topic questions)
    = first_occurrences (map QuestionSubmission.topic questions).
Proof.
  unfold group_by_topic.
  assert (G : forall tp,
    dict_keys (fold_left tally questions tp)
      = fold_left (fun acc t => if decide (t ∈ acc) then acc else acc ++ [t])
          (map QuestionSubmission.topic questions) (dict_keys tp)).
  { induction questions as [|q qs IH]; intros tp; simpl; [done|].
    by rewrite IH, dict_keys_tally. }
  rewrite G, first_occurrences_from. simpl.
  induction (first_occurrences (map QuestionSubmission.topic questions)) as [|x l IH];
    [done|].
  rewrite filter_cons_True by apply not_elem_of_nil. by rewrite IH.
Qed.

(** X2. The keys of the topic mapping are the distinct topics of the
    submission in the order in which they first occur. *)
Theorem X2_topics_in_order_of_first_occurrence (questions : list QuestionSubmission.t) :
  dict_keys (group_by_topic questions)
    = first_occurrences (map QuestionSubmission.topic questions).
Proof. apply group_by_topic_key_order. Qed.

(** ** Further properties: bounds *)

Lemma ratio_bounds c t :
  0 <= c <= t -> 0 < t -> (0 <= inject_Z c / inject_Z t * 100 <= 100)%Q.
Proof.
  intros [Hc Hct] Ht.
  assert (Ht' : (0 < inject_Z t)%Q) by (unfold Qlt; simpl; lia).
  assert (H0 : (0 <= inject_Z c / inject_Z t)%Q).
  { apply Qle_shift_div_l; [done|]. rewrite Qmult_0_l. unfold Qle; simpl; lia. }
  assert (H1 : (inject_Z c / inject_Z t <= 1)%Q).
  { apply Qle_shift_div_r; [done|]. rewrite Qmult_1_l. unfold Qle; simpl; lia. }
  split; lra.
Qed.

Lemma ratio_full c t : 0 < t -> (inject_Z c / inject_Z t * 100 == 100)%Q <-> c = t.
Proof.
  intros Ht. destruct t as [|p|p]; try lia.
  unfold Qeq, Qdiv, Qmult, Qinv, inject_Z. simpl. lia.
Qed.

Lemma ratio_zero c t : 0 < t -> (inject_Z c / inject_Z t * 100 == 0)%Q <-> c = 0.
Proof.
  intros Ht. destruct t as [|p|p]; try lia.
  unfold Qeq, Qdiv, Qmult, Qinv, inject_Z. simpl. lia.
Qed.

Lemma len_filter_le {A} (f : A -> bool) (xs : list A) : len (List.filter f xs) <= len xs.
Proof. unfold len. pose proof (List.filter_length_le f xs). lia. Qed.

Lemma len_filter_all {A} (f : A -> bool) (xs : list A) :
  len (List.filter f xs) = len xs <-> forall x, x ∈ xs -> f x = true.
Proof.
  induction xs as [|x xs IH]; simpl.
  - split; [intros _ y Hy; by apply elem_of_nil in Hy|done].
  - pose proof (len_filter_le f xs) as Hle. destruct (f x) eqn:E.
    + rewrite !len_cons. split.
      * intros H y Hy. apply elem_of_cons in Hy as [->|Hy]; [done|].
        apply IH; [lia|done].
      * intros H. f_equal. apply IH. intros y Hy. apply H. by apply list_elem_of_further.
    + rewrite len_cons. split; [lia|]. intros H.
      rewrite (H x) in E by apply list_elem_of_here. discriminate.
Qed.

Lemma len_filter_none {A} (f : A -> bool) (xs : list A) :
  len (List.filter f xs) = 0 <-> forall x, x ∈ xs -> f x = false.
Proof.
  induction xs as [|x xs IH]; simpl.
  - split; [intros _ y Hy; by apply elem_of_nil in Hy|done].
  - destruct (f x) eqn:E.
    + rewrite len_cons. pose proof (len_nonneg (List.filter f xs)) as Hge. split; [lia|].
      intros Hall. rewrite (Hall x) in E by apply list_elem_of_here. discriminate.
    + rewrite IH. split.
      * intros Hall y Hy. apply elem_of_cons in Hy as [->|Hy]; [done|]. by apply Hall.
      * intros Hall y Hy. apply Hall. by apply list_elem_of_further.
Qed.

(** X3. For a non-empty list of questions the score lies between 0 and
    100 and [correct_count] between 0 and [total_questions]; the score is
    100 exactly when every answer is correct and 0 exactly when none is. *)
Theorem X3_score_bounds (questions : list QuestionSubmission.t) :
  questions <> [] ->
  exists s, score_questions questions = Ok s /\
    0 <= Scoring.correct_count s <= Scoring.total_questions s /\
    (0 <= Scoring.score s <= 100)%Q /\
    ((Scoring.score s == 100)%Q <-> forall q, q ∈ questions -> is_correct q = true) /\
    ((Scoring.score s == 0)%Q <-> forall q, q ∈ questions -> is_correct q = false).
Proof.
  intros Hne. eexists. split; [by apply score_questions_ok|].
  cbn [Scoring.correct_count Scoring.total_questions Scoring.score].
  pose proof (len_pos questions Hne) as Hpos.
  rewrite count_correct_len.
  pose proof (len_filter_le is_correct questions) as Hle.
  pose proof (len_nonneg (List.filter is_correct questions)) as Hge.
  split; [lia|]. split; [apply ratio_bounds; lia|]. split.
  - rewrite ratio_full by done. apply len_filter_all.
  - rewrite ratio_zero by done. apply len_filter_none.
Qed.

Lemma X3_score_bounds_witness :
  exists s, score_questions fractions_questions = Ok s /\
    0 <= Scoring.correct_count s <= Scoring.total_questions s /\
    (0 <= Scoring.score s <= 100)%Q /\ ~ (Scoring.score s == 100)%Q.
Proof.
  destruct (X3_score_bounds fractions_questions) as (s & Hs & Hc & Hb & H100 & _);
    [discriminate|].
  exists s. split; [exact Hs|]. split; [exact Hc|]. split; [exact Hb|].
  intros H. destruct H100 as [H100 _]. specialize (H100 H q_fractions_wrong).
  assert (Hin : q_fractions_wrong ∈ fractions_questions).
  { apply list_elem_of_further, list_elem_of_here. }
  apply H100 in Hin. discriminate Hin.
Defined.

(** X4. Every entry of the topic mapping of a submission counts at least
    one question, its [correct] lies between 0 and its [total], it keeps
    one detail per counted question, and the accuracy computed from it at
    line 157 is defined and lies between 0 and 100. *)
Theorem X4_topic_entries_well_formed (questions : list QuestionSubmission.t)
    (t : string) (e : TopicEntry.t) (topic_strengths : dict Q) :
  (t, e) ∈ group_by_topic questions ->
  1 <= TopicEntry.total e /\
  0 <= TopicEntry.correct e <= TopicEntry.total e /\
  len (TopicEntry.questions e) = TopicEntry.total e /\
  exists accuracy,
    topic_strength topic_strengths (t, e) = Ok (dict_set t accuracy topic_strengths) /\
    (0 <= accuracy <= 100)%Q.
Proof.
  intros Hin. apply group_by_topic_entry in Hin as (Ht & Htot & Hcor & Hq).
  pose proof (topic_total_pos questions t Ht) as Hpos.
  assert (Hle : 0 <= TopicEntry.correct e <= TopicEntry.total e).
  { rewrite Htot, Hcor. unfold topic_correct, topic_total.
    pose proof (len_filter_le is_correct (List.filter (has_topic t) questions)).
    pose proof (len_nonneg (List.filter is_correct (List.filter (has_topic t) questions))).
    lia. }
  split; [lia|]. split; [exact Hle|]. split.
  { rewrite Hq, Htot. unfold topic_total, len. by rewrite length_map. }
  eexists. split.
  - unfold topic_strength. rewrite py_truediv_ok by (apply inject_Z_nonzero; lia).
    step. reflexivity.
  - apply ratio_bounds; lia.
Qed.

Lemma X4_topic_entries_well_formed_witness :
  exists e, ("fractions"%string, e) ∈ group_by_topic fractions_questions /\
    TopicEntry.total e = 2 /\ TopicEntry.correct e = 1 /\
    exists accuracy,
      topic_strength [] ("fractions"%string, e) = Ok (dict_set "fractions" accuracy []) /\
      (0 <= accuracy <= 100)%Q.
Proof.
  assert (Hin : ("fractions"%string,
                 TopicEntry.mk 1 2 (map detail_of fractions_questions))
                ∈ group_by_topic fractions_questions) by apply list_elem_of_here.
  eexists. split; [exact Hin|]. split; [reflexivity|]. split; [reflexivity|].
  exact (proj2 (proj2 (proj2 (X4_topic_entries_well_formed fractions_questions _ _ [] Hin)))).
Defined.

(** ** Further properties: the analytics update *)

(** X5. Whenever the update of an existing record completes, it has
    added exactly one to [total_tests_taken], set [last_activity] to the
    clock reading of line 148 and left [student_id],
    [total_flashcards_viewed] and [historical_performance] as stored; the
    new streak is the stored one plus one when the two clock readings of
    the request are at most a day apart and 1 otherwise, whatever the
    stored [last_activity] was. *)
Theorem X5_update_effects (db : Database) (student_id : Z)
    (previous_results : list TestResult.t) (insights : Insights.t)
    (now_148 now_164 : datetime) (a a' : StudentAnalytics.t) :
  student_analytics db !! student_id = Some a ->
  update_student_analytics db student_id previous_results insights now_148 now_164 = Ok a' ->
  StudentAnalytics.total_tests_taken a'
    = (fun n => n + 1) <$> StudentAnalytics.total_tests_taken a /\
  StudentAnalytics.total_tests_taken a <> None /\
  StudentAnalytics.last_activity a' = Some now_148 /\
  StudentAnalytics.student_id a' = StudentAnalytics.student_id a /\
  StudentAnalytics.total_flashcards_viewed a' = StudentAnalytics.total_flashcards_viewed a /\
  StudentAnalytics.historical_performance a' = StudentAnalytics.historical_performance a /\
  StudentAnalytics.learning_streak a'
    = if now_164 - now_148 <=? timedelta_days 1
      then (fun k => k + 1) <$> StudentAnalytics.learning_streak a
      else Some 1.
Proof.
  intros Ha Hupd.
  pose proof (streak_gap_is_between_clock_readings _ _ _ _ _ _ _ _ Ha Hupd) as Hstreak.
  revert Hupd. rewrite update_student_analytics_unfold.
  unfold analytics_object. rewrite Ha. simpl default. cbv zeta.
  destruct (StudentAnalytics.total_tests_taken a) as [n|]; [|done].
  cbn [py_iadd]. step. destruct (for_each _ _ _); [|done]. step.
  match goal with |- context [mbind _ ?m] => destruct m as [streak|] end; [|done].
  step. intros [= <-]. cbn. split_and!; done.
Qed.

Lemma X5_update_effects_witness :
  exists a',
    update_student_analytics sample_db 1 (recent_results sample_db 1 5) geometry_insights
      (T0 + timedelta_hours 48) (T0 + timedelta_hours 48 + 5) = Ok a' /\
    StudentAnalytics.total_tests_taken a' = Some 7 /\
    StudentAnalytics.last_activity a' = Some (T0 + timedelta_hours 48) /\
    StudentAnalytics.total_flashcards_viewed a' = Some 0 /\
    StudentAnalytics.learning_streak a' = Some 4.
Proof.
  assert (Hupd : exists a', update_student_analytics sample_db 1 (recent_results sample_db 1 5)
                   geometry_insights (T0 + timedelta_hours 48) (T0 + timedelta_hours 48 + 5)
                   = Ok a').
  { eexists.
    apply (update_student_analytics_existing sample_db 1 _ geometry_insights _ _
             sample_analytics 6 3 geometry_questions); reflexivity. }
  destruct Hupd as [a' Hupd].
  destruct (X5_update_effects sample_db 1 _ _ _ _ sample_analytics a' eq_refl Hupd)
    as (Ht & _ & Hl & _ & Hf & _ & Hs).
  exists a'. split; [exact Hupd|]. split; [exact Ht|]. split; [exact Hl|].
  split; [exact Hf|]. exact Hs.
Defined.

Lemma sublist_keys_filter {V} (f : string * V -> bool) (d : dict V) :
  map fst (List.filter f d) `sublist_of` dict_keys d.
Proof.
  induction d as [|x d IH]; simpl; [constructor|].
  destruct (f x); simpl; by constructor.
Qed.

Lemma filter_none {A} (f : A -> bool) (xs : list A) :
  (forall x, x ∈ xs -> f x = false) -> List.filter f xs = [].
Proof.
  induction xs as [|x xs IH]; intros H; simpl; [done|].
  rewrite (H x) by apply list_elem_of_here. apply IH.
  intros y Hy. apply H. by apply list_elem_of_further.
Qed.

Lemma filter_all {A} (f : A -> bool) (xs : list A) :
  (forall x, x ∈ xs -> f x = true) -> List.filter f xs = xs.
Proof.
  induction xs as [|x xs IH]; intros H; simpl; [done|].
  rewrite (H x) by apply list_elem_of_here. f_equal. apply IH.
  intros y Hy. apply H. by apply list_elem_of_further.
Qed.

Lemma dict_keys_strengths qs :
  dict_keys (map (fun item : string * TopicEntry.t => (fst item, accuracy_of (snd item)))
               (group_by_topic qs))
    = first_occurrences (map QuestionSubmission.topic qs).
Proof.
  unfold dict_keys. rewrite map_map. simpl.
  rewrite <- group_by_topic_key_order. reflexivity.
Qed.

(** X6. On an existing record, for the topic mapping of a submission:
    the stored weak and strong lists name each topic at most once and
    keep the order in which the topics first occur in the submission; a
    topic whose accuracy is at least 70 and below 90 is in neither
    list. *)
Theorem X6_topic_lists_ordered (db : Database) (student_id : Z)
    (previous_results : list TestResult.t) (insights : Insights.t)
    (now_148 now_164 : datetime) (a : StudentAnalytics.t) (n k : Z)
    (questions : list QuestionSubmission.t) :
  student_analytics db !! student_id = Some a ->
  StudentAnalytics.total_tests_taken a = Some n ->
  StudentAnalytics.learning_streak a = Some k ->
  Insights.topic_performance insights = group_by_topic questions ->
  exists a' weak strong,
    update_student_analytics db student_id previous_results insights now_148 now_164 = Ok a' /\
    StudentAnalytics.weak_topics a' = Some weak /\
    StudentAnalytics.strong_topics a' = Some strong /\
    NoDup weak /\ NoDup strong /\
    weak `sublist_of` first_occurrences (map QuestionSubmission.topic questions) /\
    strong `sublist_of` first_occurrences (map QuestionSubmission.topic questions) /\
    (forall t, (70 <= topic_accuracy questions t)%Q -> (topic_accuracy questions t < 90)%Q ->
       (t ∉ weak) /\ (t ∉ strong)).
Proof.
  intros Ha Hn Hk Htp. eexists _, _, _. split.
  { by apply (update_student_analytics_existing _ _ _ _ _ _ a n k questions). }
  cbn [StudentAnalytics.weak_topics StudentAnalytics.strong_topics].
  split; [reflexivity|]. split; [reflexivity|].
  set (ts := map (fun item : string * TopicEntry.t => (fst item, accuracy_of (snd item)))
               (group_by_topic questions)).
  assert (Hkeys : dict_keys ts = first_occurrences (map QuestionSubmission.topic questions))
    by apply dict_keys_strengths.
  assert (Hnd : NoDup (dict_keys ts)).
  { rewrite Hkeys, <- group_by_topic_key_order. apply group_by_topic_NoDup. }
  assert (Hw : weak_of ts `sublist_of` dict_keys ts) by apply sublist_keys_filter.
  assert (Hs : strong_of ts `sublist_of` dict_keys ts) by apply sublist_keys_filter.
  split_and!.
  - by apply (sublist_NoDup (weak_of ts) (dict_keys ts)).
  - by apply (sublist_NoDup (strong_of ts) (dict_keys ts)).
  - by rewrite <- Hkeys.
  - by rewrite <- Hkeys.
  - intros t Hge Hlt. split.
    + intros Hin. apply elem_of_weak_of in Hin as (s & Hin & Hs70).
      apply group_strength_elem_of in Hin as [_ ->]. lra.
    + intros Hin. apply elem_of_strong_of in Hin as (s & Hin & Hs90).
      apply group_strength_elem_of in Hin as [_ ->]. lra.
Qed.

Lemma X6_topic_lists_ordered_witness :
  exists a' weak strong,
    update_student_analytics sample_db 1 (recent_results sample_db 1 5) mixed_insights
      (T0 + 1000) (T0 + 1001) = Ok a' /\
    StudentAnalytics.weak_topics a' = Some weak /\
    StudentAnalytics.strong_topics a' = Some strong /\
    NoDup weak /\ NoDup strong /\
    weak `sublist_of` ["geometry"; "fractions"; "algebra"]%string /\
    strong `sublist_of` ["geometry"; "fractions"; "algebra"]%string /\
    ("geometry" ∉ weak)%string /\ ("geometry" ∉ strong)%string.
Proof.
  destruct (X6_topic_lists_ordered sample_db 1 (recent_results sample_db 1 5) mixed_insights
              (T0 + 1000) (T0 + 1001) sample_analytics 6 3 mixed_questions)
    as (a' & weak & strong & Hupd & Hw & Hs & Hndw & Hnds & Hsw & Hss & Hmid);
    [reflexivity..|].
  exists a', weak, strong. split; [exact Hupd|]. split; [exact Hw|]. split; [exact Hs|].
  split; [exact Hndw|]. split; [exact Hnds|]. split; [exact Hsw|]. split; [exact Hss|].
  apply Hmid; [apply Qle_bool_iff|apply Qltb_lt]; reflexivity.
Defined.

(** X7. On an existing record: when every answer of the submission is
    correct, the update stores an empty weak list and every topic of the
    submission, in order of first occurrence, as strong; when every answer
    is wrong, it stores every topic as weak and an empty strong list. *)
Theorem X7_all_correct_all_wrong (db : Database) (student_id : Z)
    (previous_results : list TestResult.t) (insights : Insights.t)
    (now_148 now_164 : datetime) (a : StudentAnalytics.t) (n k : Z)
    (questions : list QuestionSubmission.t) :
  student_analytics db !! student_id = Some a ->
  StudentAnalytics.total_tests_taken a = Some n ->
  StudentAnalytics.learning_streak a = Some k ->
  Insights.topic_performance insights = group_by_topic questions ->
  exists a' weak strong,
    update_student_analytics db student_id previous_results insights now_148 now_164 = Ok a' /\
    StudentAnalytics.weak_topics a' = Some weak /\
    StudentAnalytics.strong_topics a' = Some strong /\
    ((forall q, q ∈ questions -> is_correct q = true) ->
     weak = [] /\ strong = first_occurrences (map QuestionSubmission.topic questions)) /\
    ((forall q, q ∈ questions -> is_correct q = false) ->
     weak = first_occurrences (map QuestionSubmission.topic questions) /\ strong = []).
Proof.
  intros Ha Hn Hk Htp. eexists _, _, _. split.
  { by apply (update_student_analytics_existing _ _ _ _ _ _ a n k questions). }
  cbn [StudentAnalytics.weak_topics StudentAnalytics.strong_topics].
  split; [reflexivity|]. split; [reflexivity|].
  set (ts := map (fun item : string * TopicEntry.t => (fst item, accuracy_of (snd item)))
               (group_by_topic questions)).
  assert (Hkeys : dict_keys ts = first_occurrences (map QuestionSubmission.topic questions))
    by apply dict_keys_strengths.
  assert (Hin_filter : forall t q, q ∈ List.filter (has_topic t) questions -> q ∈ questions).
  { intros t q Hq. apply list_elem_of_In, filter_In in Hq as [Hq _]. by apply list_elem_of_In. }
  split.
  - intros Hall.
    assert (H100 : forall item, item ∈ ts -> (snd item == 100)%Q).
    { intros [t s] Hin. apply group_strength_elem_of in Hin as [Ht ->]. simpl.
      apply ratio_full; [by apply topic_total_pos|].
      apply len_filter_all. intros q Hq. apply Hall. by apply (Hin_filter t). }
    unfold weak_of, strong_of. rewrite filter_none, filter_all; [done|..].
    + intros item Hin. apply Qgeb_le. rewrite (H100 item Hin). lra.
    + intros item Hin. destruct (Qltb (snd item) 70) eqn:E; [|done].
      apply Qltb_lt in E. rewrite (H100 item Hin) in E. lra.
  - intros Hnone.
    assert (H0 : forall item, item ∈ ts -> (snd item == 0)%Q).
    { intros [t s] Hin. apply group_strength_elem_of in Hin as [Ht ->]. simpl.
      apply ratio_zero; [by apply topic_total_pos|].
      apply len_filter_none. intros q Hq. apply Hnone. by apply (Hin_filter t). }
    unfold weak_of, strong_of. rewrite filter_all, filter_none; [done|..].
    + intros item Hin. destruct (Qgeb (snd item) 90) eqn:E; [|done].
      apply Qgeb_le in E. rewrite (H0 item Hin) in E. lra.
    + intros item Hin. apply Qltb_lt. rewrite (H0 item Hin). lra.
Qed.

Lemma X7_all_correct_all_wrong_witness :
  exists a' weak strong,
    update_student_analytics sample_db 1 (recent_results sample_db 1 5) perfect_insights
      (T0 + 1000) (T0 + 1001) = Ok a' /\
    StudentAnalytics.weak_topics a' = Some weak /\
    StudentAnalytics.strong_topics a' = Some strong /\
    weak = [] /\ strong = ["geometry"; "fractions"]%string.
Proof.
  destruct (X7_all_correct_all_wrong sample_db 1 (recent_results sample_db 1 5)
              perfect_insights (T0 + 1000) (T0 + 1001) sample_analytics 6 3
              perfect_questions)
    as (a' & weak & strong & Hupd & Hw & Hs & Hall & _); [reflexivity..|].
  exists a', weak, strong. split; [exact Hupd|]. split; [exact Hw|]. split; [exact Hs|].
  apply Hall. intros q Hq.
  repeat (apply elem_of_cons in Hq as [->|Hq]; [reflexivity|]).
  by apply elem_of_nil in Hq.
Defined.

(** ** Further properties: the composer and the handler *)

(** X9. The rows the handler prepares for one submission agree with each
    other: the result row counts as many questions as there are question
    rows and as many correct answers as rows flagged correct, every
    question row points to the result row, its flag is the equality of its
    two answers, the rows reproduce the submitted questions in order, and
    the result row carries the submission's [time_taken] and the payload's
    score. *)
Theorem X9_result_rows_consistent (db : Database) (student_id test_id : Z)
    (test_submission : TestSubmission.t) (insights : Insights.t) (now_flush : datetime) :
  let test_result := new_test_result db student_id test_id test_submission insights now_flush in
  let rows := map (new_test_question test_result) (TestSubmission.questions test_submission) in
  TestResult.total_questions test_result = len rows /\
  TestResult.correct_answers test_result = len (List.filter TestQuestion.is_correct rows) /\
  Forall (fun row => TestQuestion.test_result_id row = TestResult.id test_result) rows /\
  Forall (fun row => TestQuestion.is_correct row = true
                     <-> TestQuestion.student_answer row = TestQuestion.correct_answer row) rows /\
  map submitted_question rows = TestSubmission.questions test_submission /\
  TestResult.time_taken test_result = TestSubmission.time_taken test_submission /\
  TestResult.score test_result = Insights.score insights /\
  TestResult.student_id test_result = student_id.
Proof.
  intros test_result rows. subst rows.
  set (qs := TestSubmission.questions test_submission).
  split_and!.
  - unfold len. by rewrite length_map.
  - cbn [test_result new_test_result TestResult.correct_answers]. fold qs.
    rewrite count_correct_len. unfold len. f_equal.
    induction qs as [|q qs IH]; simpl; [done|].
    destruct (is_correct q); simpl; by rewrite IH.
  - apply Forall_forall. intros row Hrow. by apply list_elem_of_fmap in Hrow as (q & -> & _).
  - apply Forall_forall. intros row Hrow. apply list_elem_of_fmap in Hrow as (q & -> & _).
    apply is_correct_eq.
  - rewrite map_map. induction qs as [|q qs IH]; simpl; [done|].
    rewrite IH. by destruct q.
  - reflexivity.
  - reflexivity.
  - reflexivity.
Qed.

(** X10. No request to [submit_test] returns a response or changes the
    committed database: an empty question list ends in
    [ZeroDivisionError], every other submission in the [AttributeError] of
    [questions[0].time_taken], for every collaborator, student and clock. *)
Theorem X10_submit_test_never_commits groq f1 fi jd (db : Database)
    (student_id test_id : Z) (test_submission : TestSubmission.t) (clock : Clock) :
  submit_test groq f1 fi jd db student_id test_id test_submission clock
    = (db, Raise (match TestSubmission.questions test_submission with
                  | [] => ZeroDivisionError
                  | _ :: _ => AttributeError "QuestionSubmission" "time_taken"
                  end)).
Proof. apply submit_test_composer_raises. apply generate_ai_insights_raises. Qed.

(** ** Further properties: the queries *)

(** X11. The query for recent results returns stored rows of the
    requested student only, at most [n] of them, and all of the student's
    rows when there are no more than [n]. *)
Theorem X11_recent_results_of_the_student (db : Database) (student_id : Z) (n : nat) :
  (forall r, r ∈ recent_results db student_id n ->
     r ∈ test_results db /\ TestResult.student_id r = student_id) /\
  (length (recent_results db student_id n) <= n)%nat /\
  ((length (results_of db student_id) <= n)%nat ->
   forall r, r ∈ test_results db -> TestResult.student_id r = student_id ->
     r ∈ recent_results db student_id n).
Proof.
  assert (Hperm : merge_sort more_recent (results_of db student_id)
                  ≡ₚ results_of db student_id) by apply merge_sort_Permutation.
  split_and!.
  - intros r Hr. unfold recent_results in Hr.
    apply subseteq_take in Hr. rewrite Hperm in Hr.
    apply list_elem_of_In, filter_In in Hr as [Hin Hsid].
    split; [by apply list_elem_of_In|]. lia.
  - unfold recent_results. rewrite length_take. lia.
  - intros Hlen r Hin Hsid. unfold recent_results.
    rewrite take_ge by (by rewrite Hperm). rewrite Hperm.
    apply list_elem_of_In, filter_In. split; [by apply list_elem_of_In|]. lia.
Qed.

Lemma results_of_other_row db sid (r : TestResult.t) qs an :
  TestResult.student_id r <> sid ->
  results_of (mkDatabase (test_results db ++ [r]) qs an) sid = results_of db sid.
Proof.
  intros Hne. unfold results_of. cbn [test_results].
  rewrite List.filter_app. simpl.
  destruct (TestResult.student_id r =? sid) eqn:E; [lia|]. by rewrite app_nil_r.
Qed.

(** X13. The performance query for a student does not depend on other
    students: a result row, question rows and an analytics record added
    for another student leave its outcome unchanged. *)
Theorem X13_query_ignores_other_students (plot : list TestData.t -> string)
    (db : Database) (student_id other : Z) (r : TestResult.t)
    (rows : list TestQuestion.t) (record : StudentAnalytics.t) :
  other <> student_id ->
  TestResult.student_id r = other ->
  get_student_performance plot
    (mkDatabase (test_results db ++ [r]) (test_questions db ++ rows)
       (<[other := record]> (student_analytics db))) student_id
  = get_student_performance plot db student_id.
Proof.
  intros Hne Hr. unfold get_student_performance, recent_results.
  rewrite results_of_other_row by congruence.
  cbn [student_analytics]. by rewrite lookup_insert_ne.
Qed.

Lemma X13_query_ignores_other_students_witness :
  get_student_performance sample_plot
    (mkDatabase (test_results sample_db ++ [stored_result 8 2 40 (T0 + 5)])
       (test_questions sample_db ++ [])
       (<[2 := StudentAnalytics.new 2]> (student_analytics sample_db))) 1
  = get_student_performance sample_plot sample_db 1.
Proof.
  apply (X13_query_ignores_other_students sample_plot sample_db 1 2); [lia|reflexivity].
Defined.
